(** * pull-request-store.ts: the store for GitHub pull requests

    A shallow embedding of [PullRequestStore]
    (app/src/lib/stores/pull-request-store.ts) and the properties of its
    refresh cycle ([updatePullRequests]) and of its read side
    ([getPullRequests]).

    The class holds two collaborators, [db] (two Dexie tables) and
    [repositoriesStore]; its methods are [async] and may throw.  They are
    embedded in a state-and-exception monad over a record of the two
    collaborators.  A thrown exception keeps the state reached so far (a
    rejected promise does not undo what was already written). *)

From Stdlib Require Import ZArith List String Bool Lia Permutation Sorted.
Import ListNotations.
Open Scope Z_scope.

(** ** Errors and results *)

Inductive Error : Type :=
| FatalError (msg : string)   (* thrown by [fatalError] *)
| APIError (msg : string).    (* a rejected API request *)

Inductive Result (A : Type) : Type :=
| Ok (a : A)
| Err (e : Error).
Arguments Ok {A} a.
Arguments Err {A} e.

(** ** Data model *)

(** models/github-repository: the fields the store reads. *)
Record Owner : Type := { login : string }.

Record GitHubRepository : Type := {
  name : string;
  owner : Owner;
  endpoint : string;
  dbID : option Z
}.

(** api: the payloads of the two requests the store makes. *)
Record IAPIRepository : Type := {
  api_repo_name : string;
  api_repo_owner : Owner
}.

Record IAPIPullRequestRef : Type := {
  api_ref : string;
  api_sha : string;
  api_repo : IAPIRepository
}.

Record IAPIPullRequest : Type := {
  api_number : Z;
  api_title : string;
  api_created_at : string;
  api_user : Owner;
  api_head : IAPIPullRequestRef;
  api_base : IAPIPullRequestRef
}.

Inductive APIRefState : Type := failure | pending | success.

Record IAPIRefStatus : Type := {
  api_state : APIRefState;
  api_total_count : Z
}.

(** The API client: what the two requests answer for given arguments. *)
Record API : Type := {
  fetchPullRequests : string -> string -> string -> Result (list IAPIPullRequest);
  fetchCombinedRefStatus : string -> string -> string -> Result IAPIRefStatus
}.

(** databases: the rows of the two tables.  The primary key [id] is assigned
    by the table on insertion; a stored row is the pair of its key and the
    inserted object (see [Table]). *)
Record IPullRequestRef : Type := {
  row_ref : string;
  row_sha : string;
  repoId : Z
}.

Record IPullRequest : Type := {
  row_number : Z;
  row_title : string;
  createdAt : string;
  row_head : IPullRequestRef;
  row_base : IPullRequestRef;
  row_author : string
}.

Record IPullRequestStatus : Type := {
  row_state : APIRefState;
  totalCount : Z;
  pullRequestId : Z;
  status_row_sha : string
}.

(** models/pull-request: the values handed to the caller. *)
Inductive Date : Type := newDate (s : string).

Record PullRequestStatus : Type := {
  status_state : APIRefState;
  status_totalCount : Z;
  status_sha : string
}.

(** [gitHubRepository] is what [findGitHubRepositoryByID] answered: the
    postfix [!] of the source is erased at run time, so a null passes
    through. *)
Record PullRequestRef : Type := {
  ref : string;
  sha : string;
  gitHubRepository : option GitHubRepository
}.

Record PullRequest : Type := {
  id : Z;
  created : Date;
  status : option PullRequestStatus;
  title : string;
  number : Z;
  head : PullRequestRef;
  base : PullRequestRef;
  author : string
}.

(** ** Tables with an auto-incremented primary key *)

(** Modelled from the spec: the declaration of the two tables
    (lib/databases) is outside this file's source.  Both tables assign their
    primary key [id] on insertion; [pullRequests] is indexed by
    [base.repoId] and [pullRequestStatus] by [sha+pullRequestId], an index
    that admits several rows under one key (append only, nothing merged or
    rejected). *)
Module Table.

(** [rows] are kept in primary-key order, which is insertion order; the
    key generator [nextKey] only grows, also across [clear]. *)
Record t (T : Type) : Type := {
  rows : list (Z * T);
  nextKey : Z
}.
Arguments rows {T} _.
Arguments nextKey {T} _.

Definition empty {T : Type} : t T := {| rows := []; nextKey := 1 |}.

Fixpoint assignKeys {T : Type} (k : Z) (items : list T) : list (Z * T) :=
  match items with
  | [] => []
  | x :: rest => (k, x) :: assignKeys (k + 1) rest
  end.

Definition bulkAdd {T : Type} (items : list T) (tbl : t T) : t T :=
  {| rows := rows tbl ++ assignKeys (nextKey tbl) items;
     nextKey := nextKey tbl + Z.of_nat (List.length items) |}.

Definition clear {T : Type} (tbl : t T) : t T :=
  {| rows := []; nextKey := nextKey tbl |}.

(** [where(index).equals(key)]: the matching rows, in index order; rows
    with equal index keys come in primary-key order. *)
Definition whereEquals {T : Type} (p : Z * T -> bool) (tbl : t T) : list (Z * T) :=
  filter p (rows tbl).

End Table.

(** ** The state of the store *)

Record PullRequestDatabase : Type := {
  pullRequests : Table.t IPullRequest;
  pullRequestStatus : Table.t IPullRequestStatus
}.

(** Modelled from the spec: the repository-identity store
    (stores/repositories-store.ts) is outside this file's source.  It is an
    upsert keyed by (endpoint, owner, name), [findOrPutGitHubRepository],
    with a lookup by local id, [findGitHubRepositoryByID]. *)
Record RepositoriesStore : Type := {
  repositories : list GitHubRepository;
  nextRepositoryID : Z
}.

Record PullRequestStore : Type := {
  db : PullRequestDatabase;
  repositoriesStore : RepositoriesStore
}.

(** ** The monad of [async] methods *)

Definition M (A : Type) : Type := PullRequestStore -> Result A * PullRequestStore.

Definition ret {A : Type} (a : A) : M A := fun s => (Ok a, s).

Definition bind {A B : Type} (m : M A) (f : A -> M B) : M B :=
  fun s =>
    match m s with
    | (Ok a, s') => f a s'
    | (Err e, s') => (Err e, s')
    end.

Definition throw {A : Type} (e : Error) : M A := fun s => (Err e, s).

(** Awaiting a request of the API client: its answer, with no effect on the
    store. *)
Definition await {A : Type} (r : Result A) : M A := fun s => (r, s).

Definition gets {A : Type} (f : PullRequestStore -> A) : M A := fun s => (Ok (f s), s).

Definition modify (f : PullRequestStore -> PullRequestStore) : M unit :=
  fun s => (Ok tt, f s).

Declare Scope async_scope.
Delimit Scope async_scope with async.
Notation "x <- m ;; k" := (bind m (fun x => k))
  (at level 61, m at next level, right associativity) : async_scope.
Notation "m ;; k" := (bind m (fun _ => k))
  (at level 61, right associativity) : async_scope.
Open Scope async_scope.

(** Modelled from the spec: [fatalError] (lib/fatal-error.ts) is outside
    this file's source.  Operating on a repository with no local identity
    is fatal: the call throws and never returns. *)
Definition fatalError (msg : string) : M unit := throw (FatalError msg).

(** ** repositoriesStore *)

(** Modelled from the spec: the key of the upsert of
    stores/repositories-store.ts, (endpoint, owner, name). *)
Definition sameRepository (endpoint0 : string) (r : IAPIRepository) (g : GitHubRepository) : bool :=
  String.eqb (endpoint g) endpoint0
  && String.eqb (login (owner g)) (login (api_repo_owner r))
  && String.eqb (name g) (api_repo_name r).

(** Modelled from the spec: the create half of find-or-create of
    stores/repositories-store.ts; the new record gets the next local id. *)
Definition putGitHubRepository (endpoint0 : string) (r : IAPIRepository)
    (st : RepositoriesStore) : GitHubRepository * RepositoriesStore :=
  let g := {| name := api_repo_name r;
              owner := api_repo_owner r;
              endpoint := endpoint0;
              dbID := Some (nextRepositoryID st) |} in
  (g, {| repositories := repositories st ++ [g];
         nextRepositoryID := nextRepositoryID st + 1 |}).

(** Modelled from the spec: find-or-create of stores/repositories-store.ts
    on the state of the repositories store. *)
Definition findOrPut (endpoint0 : string) (r : IAPIRepository)
    (st : RepositoriesStore) : GitHubRepository * RepositoriesStore :=
  match find (sameRepository endpoint0 r) (repositories st) with
  | Some g => (g, st)
  | None => putGitHubRepository endpoint0 r st
  end.

(** Modelled from the spec: [findGitHubRepositoryByID] of
    stores/repositories-store.ts, the repository with this local id or
    null. *)
Definition findGitHubRepositoryByID (id0 : Z) : M (option GitHubRepository) :=
  gets (fun s =>
    find (fun g => match dbID g with Some d => d =? id0 | None => false end)
         (repositories (repositoriesStore s))).

(** Modelled from the spec: [findOrPutGitHubRepository] of
    stores/repositories-store.ts, as a method on the store. *)
Definition findOrPutGitHubRepository (endpoint0 : string) (r : IAPIRepository)
    : M GitHubRepository :=
  fun s =>
    let (g, st) := findOrPut endpoint0 r (repositoriesStore s) in
    (Ok g, {| db := db s; repositoriesStore := st |}).

(** [g.dbID!] for a repository handed out by the repositories store, whose
    [dbID] is always assigned (lemma [findOrPut_dbID] below). *)
Definition assignedID (g : GitHubRepository) : Z :=
  match dbID g with
  | Some d => d
  | None => 0
  end.

(** ** PullRequestStore *)

Definition setPullRequests (tbl : Table.t IPullRequest) (s : PullRequestStore) : PullRequestStore :=
  {| db := {| pullRequests := tbl; pullRequestStatus := pullRequestStatus (db s) |};
     repositoriesStore := repositoriesStore s |}.

Definition setPullRequestStatus (tbl : Table.t IPullRequestStatus) (s : PullRequestStore)
    : PullRequestStore :=
  {| db := {| pullRequests := pullRequests (db s); pullRequestStatus := tbl |};
     repositoriesStore := repositoriesStore s |}.

(** [writePullRequestStatus]: one [bulkAdd] on the status table. *)
Definition writePullRequestStatus (statuses : list IPullRequestStatus) : M unit :=
  modify (fun s => setPullRequestStatus (Table.bulkAdd statuses (pullRequestStatus (db s))) s).

(** [getPullRequestStatusById]:
    [where('[sha+pullRequestId]').equals([sha, pullRequestId]).limit(1).first()]. *)
Definition statusKeyIs (sha0 : string) (pullRequestId0 : Z) (r : Z * IPullRequestStatus) : bool :=
  String.eqb (status_row_sha (snd r)) sha0 && (pullRequestId (snd r) =? pullRequestId0).

Definition getPullRequestStatusById (sha0 : string) (pullRequestId0 : Z)
    : M (option PullRequestStatus) :=
  result <- gets (fun s =>
      hd_error (firstn 1 (Table.whereEquals (statusKeyIs sha0 pullRequestId0)
                                            (pullRequestStatus (db s))))) ;;
  match result with
  | None => ret None
  | Some r =>
      ret (Some {| status_state := row_state (snd r);
                   status_totalCount := totalCount (snd r);
                   status_sha := status_row_sha (snd r) |})
  end.

(** [writePullRequests]: the loop that resolves the repositories of every
    fetched pull request and collects the rows to insert. *)
Fixpoint insertablePRs (endpoint0 : string) (pullRequests0 : list IAPIPullRequest)
    : M (list IPullRequest) :=
  match pullRequests0 with
  | [] => ret []
  | pr :: rest =>
      headRepo <- findOrPutGitHubRepository endpoint0 (api_repo (api_head pr)) ;;
      baseRepo <- findOrPutGitHubRepository endpoint0 (api_repo (api_base pr)) ;;
      let row :=
        {| row_number := api_number pr;
           row_title := api_title pr;
           createdAt := api_created_at pr;
           row_head := {| row_ref := api_ref (api_head pr);
                          row_sha := api_sha (api_head pr);
                          repoId := assignedID headRepo |};
           row_base := {| row_ref := api_ref (api_base pr);
                          row_sha := api_sha (api_base pr);
                          repoId := assignedID baseRepo |};
           row_author := login (api_user pr) |} in
      more <- insertablePRs endpoint0 rest ;;
      ret (row :: more)
  end.

Definition writePullRequests (pullRequests0 : list IAPIPullRequest)
    (repository : GitHubRepository) : M unit :=
  match dbID repository with
  | None | Some 0 =>
      fatalError "Cannot store pull requests for a repository that hasn't been inserted into the database!"%string ;;
      ret tt
  | Some _ =>
      rows0 <- insertablePRs (endpoint repository) pullRequests0 ;;
      (* db.transaction('rw', table, ...): clear and bulkAdd as one step *)
      modify (fun s =>
        setPullRequests (Table.bulkAdd rows0 (Table.clear (pullRequests (db s)))) s)
  end.

(** [reverse().sortBy('number')]: the rows are collected in reverse index
    order and sorted by descending number; rows with equal numbers keep
    the order in which they were collected. *)
Fixpoint insertByNumber (r : Z * IPullRequest) (l : list (Z * IPullRequest))
    : list (Z * IPullRequest) :=
  match l with
  | [] => [r]
  | x :: rest =>
      if row_number (snd x) <=? row_number (snd r)
      then r :: x :: rest
      else x :: insertByNumber r rest
  end.

Fixpoint sortByNumberDesc (l : list (Z * IPullRequest)) : list (Z * IPullRequest) :=
  match l with
  | [] => []
  | r :: rest => insertByNumber r (sortByNumberDesc rest)
  end.

Definition baseRepoIs (gitHubRepositoryID : Z) (r : Z * IPullRequest) : bool :=
  repoId (row_base (snd r)) =? gitHubRepositoryID.

Definition listByRepository (gitHubRepositoryID : Z) (s : PullRequestStore)
    : list (Z * IPullRequest) :=
  sortByNumberDesc (rev (Table.whereEquals (baseRepoIs gitHubRepositoryID)
                                           (pullRequests (db s)))).

(** The body of the loop of [getPullRequests]. *)
Definition buildPullRequest (pr : Z * IPullRequest) : M PullRequest :=
  head0 <- findGitHubRepositoryByID (repoId (row_head (snd pr))) ;;
  base0 <- findGitHubRepositoryByID (repoId (row_base (snd pr))) ;;
  prStatus <- getPullRequestStatusById (row_sha (row_head (snd pr))) (fst pr) ;;
  ret {| id := fst pr;
         created := newDate (createdAt (snd pr));
         status := prStatus;
         title := row_title (snd pr);
         number := row_number (snd pr);
         head := {| ref := row_ref (row_head (snd pr));
                    sha := row_sha (row_head (snd pr));
                    gitHubRepository := head0 |};
         base := {| ref := row_ref (row_base (snd pr));
                    sha := row_sha (row_base (snd pr));
                    gitHubRepository := base0 |};
         author := row_author (snd pr) |}.

Fixpoint buildPullRequests (pullRequests0 : list (Z * IPullRequest)) : M (list PullRequest) :=
  match pullRequests0 with
  | [] => ret []
  | pr :: rest =>
      builtPR <- buildPullRequest pr ;;
      more <- buildPullRequests rest ;;
      ret (builtPR :: more)
  end.

Definition getPullRequests (repository : GitHubRepository) : M (list PullRequest) :=
  match dbID repository with
  | None | Some 0 =>
      fatalError "Cannot get pull requests for a repository that hasn't been inserted into the database!"%string ;;
      ret []
  | Some gitHubRepositoryID =>
      pullRequests0 <- gets (listByRepository gitHubRepositoryID) ;;
      buildPullRequests pullRequests0
  end.

(** The loop of [updatePullRequests] that fetches the combined status of
    every pull request and collects the rows to append. *)
Fixpoint pullRequestsStatuses (api : API) (repository : GitHubRepository)
    (prs : list PullRequest) : M (list IPullRequestStatus) :=
  match prs with
  | [] => ret []
  | pr :: rest =>
      status0 <- await (fetchCombinedRefStatus api (login (owner repository))
                                               (name repository) (sha (head pr))) ;;
      let row :=
        {| row_state := api_state status0;
           totalCount := api_total_count status0;
           pullRequestId := id pr;
           status_row_sha := sha (head pr) |} in
      more <- pullRequestsStatuses api repository rest ;;
      ret (row :: more)
  end.

(** [updatePullRequests]; [api] is the client [API.fromAccount(account)]. *)
Definition updatePullRequests (repository : GitHubRepository) (api : API)
    : M (list PullRequest) :=
  prsFrmoAPI <- await (fetchPullRequests api (login (owner repository))
                                         (name repository) "open"%string) ;;
  writePullRequests prsFrmoAPI repository ;;
  prs <- getPullRequests repository ;;
  statuses <- pullRequestsStatuses api repository prs ;;
  writePullRequestStatus statuses ;;
  prs' <- getPullRequests repository ;;
  ret prs'.

(** ** The read side as functions of the store *)

Definition toStatus (r : Z * IPullRequestStatus) : PullRequestStatus :=
  {| status_state := row_state (snd r);
     status_totalCount := totalCount (snd r);
     status_sha := status_row_sha (snd r) |}.

Definition statusRows (s : PullRequestStore) : list (Z * IPullRequestStatus) :=
  Table.rows (pullRequestStatus (db s)).

Definition pullRequestRows (s : PullRequestStore) : list (Z * IPullRequest) :=
  Table.rows (pullRequests (db s)).

Definition statusFor (sha0 : string) (pullRequestId0 : Z) (s : PullRequestStore)
    : option PullRequestStatus :=
  option_map toStatus (find (statusKeyIs sha0 pullRequestId0) (statusRows s)).

Definition hasID (id0 : Z) (g : GitHubRepository) : bool :=
  match dbID g with Some d => d =? id0 | None => false end.

Definition repositoryByID (id0 : Z) (s : PullRequestStore) : option GitHubRepository :=
  find (hasID id0) (repositories (repositoriesStore s)).

Definition built (s : PullRequestStore) (pr : Z * IPullRequest) : PullRequest :=
  {| id := fst pr;
     created := newDate (createdAt (snd pr));
     status := statusFor (row_sha (row_head (snd pr))) (fst pr) s;
     title := row_title (snd pr);
     number := row_number (snd pr);
     head := {| ref := row_ref (row_head (snd pr));
                sha := row_sha (row_head (snd pr));
                gitHubRepository := repositoryByID (repoId (row_head (snd pr))) s |};
     base := {| ref := row_ref (row_base (snd pr));
                sha := row_sha (row_base (snd pr));
                gitHubRepository := repositoryByID (repoId (row_base (snd pr))) s |};
     author := row_author (snd pr) |}.

Definition getMessage : string :=
  "Cannot get pull requests for a repository that hasn't been inserted into the database!".

Definition storeMessage : string :=
  "Cannot store pull requests for a repository that hasn't been inserted into the database!".

Definition numberGe (a b : Z * IPullRequest) : Prop :=
  row_number (snd b) <= row_number (snd a).

(** ** The write side as functions of the store *)

Definition rowOf (pr : IAPIPullRequest) (headRepo baseRepo : GitHubRepository) : IPullRequest :=
  {| row_number := api_number pr;
     row_title := api_title pr;
     createdAt := api_created_at pr;
     row_head := {| row_ref := api_ref (api_head pr);
                    row_sha := api_sha (api_head pr);
                    repoId := assignedID headRepo |};
     row_base := {| row_ref := api_ref (api_base pr);
                    row_sha := api_sha (api_base pr);
                    repoId := assignedID baseRepo |};
     row_author := login (api_user pr) |}.

Fixpoint insertableRows (endpoint0 : string) (prs : list IAPIPullRequest)
    (st : RepositoriesStore) : list IPullRequest * RepositoriesStore :=
  match prs with
  | [] => ([], st)
  | pr :: rest =>
      let (headRepo, st1) := findOrPut endpoint0 (api_repo (api_head pr)) st in
      let (baseRepo, st2) := findOrPut endpoint0 (api_repo (api_base pr)) st1 in
      let (more, st3) := insertableRows endpoint0 rest st2 in
      (rowOf pr headRepo baseRepo :: more, st3)
  end.

Definition setRepositories (st : RepositoriesStore) (s : PullRequestStore) : PullRequestStore :=
  {| db := db s; repositoriesStore := st |}.

(** The store after step 2 of a refresh. *)
Definition written (prs : list IAPIPullRequest) (repository : GitHubRepository)
    (s : PullRequestStore) : PullRequestStore :=
  let rs := insertableRows (endpoint repository) prs (repositoriesStore s) in
  setPullRequests (Table.bulkAdd (fst rs) (Table.clear (pullRequests (db s))))
                  (setRepositories (snd rs) s).

Definition statusRowOf (pr : PullRequest) (status0 : IAPIRefStatus) : IPullRequestStatus :=
  {| row_state := api_state status0;
     totalCount := api_total_count status0;
     pullRequestId := id pr;
     status_row_sha := sha (head pr) |}.

Fixpoint fetchedStatuses (api : API) (repository : GitHubRepository) (prs : list PullRequest)
    : Result (list IPullRequestStatus) :=
  match prs with
  | [] => Ok []
  | pr :: rest =>
      match fetchCombinedRefStatus api (login (owner repository)) (name repository)
                                   (sha (head pr)) with
      | Err e => Err e
      | Ok status0 =>
          match fetchedStatuses api repository rest with
          | Err e => Err e
          | Ok more => Ok (statusRowOf pr status0 :: more)
          end
      end
  end.

Definition viewOf (d : Z) (s : PullRequestStore) : list PullRequest :=
  map (built s) (listByRepository d s).

(** The store after step 5 of a refresh. *)
Definition attached (statuses : list IPullRequestStatus) (s : PullRequestStore)
    : PullRequestStore :=
  setPullRequestStatus (Table.bulkAdd statuses (pullRequestStatus (db s))) s.

(** ** Concrete repositories, clients and stores *)

Definition gitHubRepo (owner0 name0 : string) (dbID0 : option Z) : GitHubRepository :=
  {| name := name0;
     owner := {| login := owner0 |};
     endpoint := "https://api.github.com";
     dbID := dbID0 |}.

Definition desktop : GitHubRepository := gitHubRepo "desktop" "desktop" (Some 1).
Definition dugite : GitHubRepository := gitHubRepo "desktop" "dugite" (Some 2).
Definition unsaved : GitHubRepository := gitHubRepo "desktop" "fresh" None.

Definition apiRepository (g : GitHubRepository) : IAPIRepository :=
  {| api_repo_name := name g; api_repo_owner := owner g |}.

Definition remotePullRequest (n : Z) (title0 sha0 : string) (baseRepo : GitHubRepository)
    : IAPIPullRequest :=
  {| api_number := n;
     api_title := title0;
     api_created_at := "2017-10-05T12:00:00Z";
     api_user := {| login := "octocat" |};
     api_head := {| api_ref := "feature"; api_sha := sha0;
                    api_repo := apiRepository baseRepo |};
     api_base := {| api_ref := "master"; api_sha := "0000";
                    api_repo := apiRepository baseRepo |} |}.

Definition offline : API :=
  {| fetchPullRequests := fun _ _ _ => Err (APIError "offline");
     fetchCombinedRefStatus := fun _ _ _ => Err (APIError "offline") |}.

Definition remote (prs : list IAPIPullRequest) (statusOf : string -> Result IAPIRefStatus) : API :=
  {| fetchPullRequests := fun _ _ _ => Ok prs;
     fetchCombinedRefStatus := fun _ _ sha0 => statusOf sha0 |}.

Definition twoChecksPassed : IAPIRefStatus :=
  {| api_state := success; api_total_count := 2 |}.

Definition fiveAndThree : list IAPIPullRequest :=
  [ remotePullRequest 3 "three" "sha3" desktop;
    remotePullRequest 5 "five" "sha5" desktop ].

(** Every status request succeeds. *)
Definition allGreen : API := remote fiveAndThree (fun _ => Ok twoChecksPassed).

(** The status request for the head of #3 is rejected. *)
Definition flaky : API :=
  remote fiveAndThree
         (fun sha0 => if String.eqb sha0 "sha3" then Err (APIError "rate limit")
                      else Ok twoChecksPassed).

Definition knownRepositories : RepositoriesStore :=
  {| repositories := [desktop; dugite]; nextRepositoryID := 3 |}.

Definition storeOf (prs : Table.t IPullRequest) (statuses : Table.t IPullRequestStatus)
    : PullRequestStore :=
  {| db := {| pullRequests := prs; pullRequestStatus := statuses |};
     repositoriesStore := knownRepositories |}.

Definition emptyStore : PullRequestStore := storeOf Table.empty Table.empty.

Definition storedPullRequest (n : Z) (title0 sha0 : string) (headRepoId baseRepoId : Z)
    : IPullRequest :=
  {| row_number := n;
     row_title := title0;
     createdAt := "2017-10-05T12:00:00Z";
     row_head := {| row_ref := "feature"; row_sha := sha0; repoId := headRepoId |};
     row_base := {| row_ref := "master"; row_sha := "0000"; repoId := baseRepoId |};
     row_author := "octocat" |}.

(** One cached pull request of dugite. *)
Definition dugiteCached : PullRequestStore :=
  storeOf {| Table.rows := [(1, storedPullRequest 7 "seven" "sha7" 2 2)]; Table.nextKey := 2 |}
          Table.empty.

(** One cached pull request of desktop whose head repository, 9, is unknown
    to the repositories store. *)
Definition danglingHead : PullRequestStore :=
  storeOf {| Table.rows := [(1, storedPullRequest 5 "five" "sha5" 9 1)]; Table.nextKey := 2 |}
          Table.empty.

Definition olderStatus : IPullRequestStatus :=
  {| row_state := pending; totalCount := 1; pullRequestId := 1; status_row_sha := "sha5" |}.

Definition newerStatus : IPullRequestStatus :=
  {| row_state := success; totalCount := 2; pullRequestId := 1; status_row_sha := "sha5" |}.

(** Pull request 1 of desktop with two status rows under the same key. *)
Definition twoStatuses : PullRequestStore :=
  storeOf {| Table.rows := [(1, storedPullRequest 5 "five" "sha5" 1 1)]; Table.nextKey := 2 |}
          {| Table.rows := [(1, olderStatus); (2, newerStatus)]; Table.nextKey := 3 |}.

(** Two cached pull requests of desktop with the same number. *)
Definition sameNumberTwice : PullRequestStore :=
  storeOf {| Table.rows := [(1, storedPullRequest 5 "five" "sha5" 1 1);
                            (2, storedPullRequest 5 "five again" "sha6" 1 1)];
             Table.nextKey := 3 |}
          Table.empty.

(** The row appended last among those under a key. *)
Definition mostRecentlyAppended (sha0 : string) (pullRequestId0 : Z) (s : PullRequestStore)
    : option (Z * IPullRequestStatus) :=
  find (statusKeyIs sha0 pullRequestId0) (rev (statusRows s)).

Definition numbersOf (d : Z) (s : PullRequestStore) : list Z :=
  map (fun r => row_number (snd r)) (filter (baseRepoIs d) (pullRequestRows s)).

(** Pull requests 1 and 2 of desktop; a status row is recorded for the
    first only. *)
Definition partlyAttached : PullRequestStore :=
  storeOf {| Table.rows := [(1, storedPullRequest 3 "three" "sha3" 1 1);
                            (2, storedPullRequest 5 "five" "sha5" 2 1)];
             Table.nextKey := 3 |}
          {| Table.rows := [(1, {| row_state := failure; totalCount := 4;
                                   pullRequestId := 1; status_row_sha := "sha3" |})];
             Table.nextKey := 2 |}.

(** The repositories store only grows, at its end. *)
Definition extends (st st' : RepositoriesStore) : Prop :=
  exists added, repositories st' = repositories st ++ added.

(** What a caller can tell of a pull request apart from its storage id and
    its status. *)
Definition numberAndTitle (p : PullRequest) : Z * string := (number p, title p).

Definition logicalRows (r : Result (list PullRequest)) : Result (list (Z * string)) :=
  match r with
  | Ok v => Ok (map numberAndTitle v)
  | Err e => Err e
  end.

(** ** What a refresh is run against *)

(** The fields of a pull request that come from the remote record. *)
Definition Logical : Type :=
  (Z * string * string * Date * (string * string) * (string * string))%type.

Definition logicalOf (p : PullRequest) : Logical :=
  (number p, title p, author p, created p,
   (ref (head p), sha (head p)), (ref (base p), sha (base p))).

Definition logicalOfRow (r : IPullRequest) : Logical :=
  (row_number r, row_title r, row_author r, newDate (createdAt r),
   (row_ref (row_head r), row_sha (row_head r)),
   (row_ref (row_base r), row_sha (row_base r))).

Definition logicalOfRemote (pr : IAPIPullRequest) : Logical :=
  (api_number pr, api_title pr, login (api_user pr), newDate (api_created_at pr),
   (api_ref (api_head pr), api_sha (api_head pr)),
   (api_ref (api_base pr), api_sha (api_base pr))).


(** The repositories store knows [repository] under the local id [d]. *)
Definition resolvesTo (repository : GitHubRepository) (d : Z) (st : RepositoriesStore) : Prop :=
  exists g,
    find (sameRepository (endpoint repository) (apiRepository repository)) (repositories st)
    = Some g /\
    dbID g = Some d.

(** Status rows refer to pull-request ids the table has already handed out. *)
Definition statusTableOK (s : PullRequestStore) : Prop :=
  forall r, In r (statusRows s) ->
            pullRequestId (snd r) < Table.nextKey (pullRequests (db s)).


(** ** Stores a refresh leaves *)

(** Every record of the repositories store has its local id. *)
Definition repositoriesOK (st : RepositoriesStore) : Prop :=
  Forall (fun g => dbID g <> None) (repositories st).

(** The composite key of a status row. *)
Definition statusKey (r : Z * IPullRequestStatus) : string * Z :=
  (status_row_sha (snd r), pullRequestId (snd r)).

(** No two status rows are recorded under one key. *)
Definition statusKeysUnique (s : PullRequestStore) : Prop :=
  NoDup (map statusKey (statusRows s)).

(** A repository whose [dbID] is the number 0. *)
Definition zeroID : GitHubRepository := gitHubRepo "desktop" "zero" (Some 0).

(** No pull request is open. *)
Definition nothingOpen : API := remote [] (fun _ => Ok twoChecksPassed).

(** The remote answers the same number twice. *)
Definition fiveTwice : list IAPIPullRequest :=
  [ remotePullRequest 5 "five" "sha5" desktop;
    remotePullRequest 5 "five again" "sha6" desktop ].

Definition repeatedFive : API := remote fiveTwice (fun _ => Ok twoChecksPassed).



(** * Properties *)

(** ** Running the monad *)

Lemma bind_ok {A B : Type} (m : M A) (f : A -> M B) s a s' :
  m s = (Ok a, s') -> bind m f s = f a s'.
Proof. intros H. unfold bind. now rewrite H. Qed.

Lemma bind_err {A B : Type} (m : M A) (f : A -> M B) s e s' :
  m s = (Err e, s') -> bind m f s = (Err e, s').
Proof. intros H. unfold bind. now rewrite H. Qed.

Lemma first_of_limit_1 {T : Type} (p : T -> bool) (l : list T) :
  hd_error (firstn 1 (filter p l)) = find p l.
Proof.
  induction l as [|x l IH]; simpl; [reflexivity|].
  destruct (p x); simpl; auto.
Qed.

Lemma findGitHubRepositoryByID_run id0 s :
  findGitHubRepositoryByID id0 s = (Ok (repositoryByID id0 s), s).
Proof. reflexivity. Qed.

Lemma getPullRequestStatusById_run sha0 id0 s :
  getPullRequestStatusById sha0 id0 s = (Ok (statusFor sha0 id0 s), s).
Proof.
  unfold getPullRequestStatusById, statusFor, statusRows, bind, gets, Table.whereEquals.
  rewrite first_of_limit_1.
  destruct (find _ _); reflexivity.
Qed.

Lemma buildPullRequest_run pr s :
  buildPullRequest pr s = (Ok (built s pr), s).
Proof.
  unfold buildPullRequest.
  rewrite (bind_ok _ _ _ _ _ (findGitHubRepositoryByID_run _ s)).
  rewrite (bind_ok _ _ _ _ _ (findGitHubRepositoryByID_run _ s)).
  rewrite (bind_ok _ _ _ _ _ (getPullRequestStatusById_run _ _ s)).
  reflexivity.
Qed.

Lemma buildPullRequests_run l s :
  buildPullRequests l s = (Ok (map (built s) l), s).
Proof.
  induction l as [|pr l IH]; simpl; [reflexivity|].
  rewrite (bind_ok _ _ _ _ _ (buildPullRequest_run pr s)).
  rewrite (bind_ok _ _ _ _ _ IH).
  reflexivity.
Qed.

Lemma getPullRequests_run repository d s :
  dbID repository = Some d -> d <> 0 ->
  getPullRequests repository s = (Ok (map (built s) (listByRepository d s)), s).
Proof.
  intros Hd Hnz. unfold getPullRequests. rewrite Hd.
  destruct d; try contradiction;
    unfold bind, gets; apply buildPullRequests_run.
Qed.

Lemma getPullRequests_fatal repository s :
  dbID repository = None \/ dbID repository = Some 0 ->
  getPullRequests repository s = (Err (FatalError getMessage), s).
Proof.
  intros [H|H]; unfold getPullRequests; rewrite H; reflexivity.
Qed.

Lemma writePullRequests_fatal prs repository s :
  dbID repository = None \/ dbID repository = Some 0 ->
  writePullRequests prs repository s = (Err (FatalError storeMessage), s).
Proof.
  intros [H|H]; unfold writePullRequests; rewrite H; reflexivity.
Qed.

(** ** Sorting by number *)

Lemma insertByNumber_perm r l : Permutation (insertByNumber r l) (r :: l).
Proof.
  induction l as [|x l IH]; simpl; [reflexivity|].
  destruct (row_number (snd x) <=? row_number (snd r)); [reflexivity|].
  rewrite IH. apply perm_swap.
Qed.

Lemma sortByNumberDesc_perm l : Permutation (sortByNumberDesc l) l.
Proof.
  induction l as [|r l IH]; simpl; [reflexivity|].
  rewrite insertByNumber_perm. now constructor.
Qed.

Lemma insertByNumber_sorted r l :
  Sorted numberGe l -> Sorted numberGe (insertByNumber r l).
Proof.
  induction 1 as [|x l Hs IH Hhd]; simpl.
  - repeat constructor.
  - destruct (row_number (snd x) <=? row_number (snd r)) eqn:E.
    + constructor; [constructor; assumption|].
      constructor. unfold numberGe. lia.
    + constructor; [assumption|].
      destruct l as [|y l]; simpl in *.
      * constructor. unfold numberGe. lia.
      * destruct (row_number (snd y) <=? row_number (snd r)).
        -- constructor. unfold numberGe. lia.
        -- constructor. now inversion Hhd.
Qed.

Lemma sortByNumberDesc_sorted l : Sorted numberGe (sortByNumberDesc l).
Proof.
  induction l as [|r l IH]; simpl; [constructor|].
  now apply insertByNumber_sorted.
Qed.

Lemma numberGe_trans : Relations_1.Transitive numberGe.
Proof. intros a b c. unfold numberGe. lia. Qed.

(** The sort looks at the rows, not at their keys. *)
Lemma insertByNumber_rows r1 r2 l1 l2 :
  snd r1 = snd r2 -> map snd l1 = map snd l2 ->
  map snd (insertByNumber r1 l1) = map snd (insertByNumber r2 l2).
Proof.
  intros Hr. revert l2.
  induction l1 as [|x l1 IH]; intros [|y l2] Hl; simpl in *; try discriminate.
  - now rewrite Hr.
  - injection Hl as Hxy Hl. rewrite Hr, Hxy.
    destruct (row_number (snd y) <=? row_number (snd r2)); simpl.
    + now rewrite Hr, Hxy, Hl.
    + rewrite Hxy. f_equal. now apply IH.
Qed.

Lemma sortByNumberDesc_rows l1 l2 :
  map snd l1 = map snd l2 ->
  map snd (sortByNumberDesc l1) = map snd (sortByNumberDesc l2).
Proof.
  revert l2.
  induction l1 as [|x l1 IH]; intros [|y l2] Hl; simpl in *; try discriminate.
  - reflexivity.
  - injection Hl as Hxy Hl. apply insertByNumber_rows; auto.
Qed.

Lemma filter_rows (p : IPullRequest -> bool) (l1 l2 : list (Z * IPullRequest)) :
  map snd l1 = map snd l2 ->
  map snd (filter (fun r => p (snd r)) l1) = map snd (filter (fun r => p (snd r)) l2).
Proof.
  revert l2.
  induction l1 as [|x l1 IH]; intros [|y l2] Hl; simpl in *; try discriminate.
  - reflexivity.
  - injection Hl as Hxy Hl. rewrite Hxy.
    destruct (p (snd y)); simpl; [rewrite Hxy; f_equal|]; now apply IH.
Qed.

Lemma listByRepository_rows d s1 s2 :
  map snd (pullRequestRows s1) = map snd (pullRequestRows s2) ->
  map snd (listByRepository d s1) = map snd (listByRepository d s2).
Proof.
  intros H. unfold listByRepository, Table.whereEquals.
  apply sortByNumberDesc_rows.
  rewrite !map_rev. f_equal.
  apply (filter_rows (fun r => repoId (row_base r) =? d)), H.
Qed.

Lemma listByRepository_perm d s :
  Permutation (listByRepository d s) (filter (baseRepoIs d) (pullRequestRows s)).
Proof.
  unfold listByRepository, Table.whereEquals.
  rewrite sortByNumberDesc_perm. symmetry. apply Permutation_rev.
Qed.

Lemma listByRepository_In d s r :
  In r (listByRepository d s) <->
  In r (pullRequestRows s) /\ repoId (row_base (snd r)) = d.
Proof.
  rewrite (Permutation_in' (eq_refl r) (listByRepository_perm d s)) at 1.
  rewrite filter_In. unfold baseRepoIs. now rewrite Z.eqb_eq.
Qed.

(** ** Running the write side *)

Lemma insertablePRs_run endpoint0 prs s :
  insertablePRs endpoint0 prs s =
  (Ok (fst (insertableRows endpoint0 prs (repositoriesStore s))),
   setRepositories (snd (insertableRows endpoint0 prs (repositoriesStore s))) s).
Proof.
  revert s. induction prs as [|pr rest IH]; intros s; simpl.
  - destruct s; reflexivity.
  - unfold bind at 1. unfold findOrPutGitHubRepository at 1.
    destruct (findOrPut endpoint0 (api_repo (api_head pr)) (repositoriesStore s))
      as [headRepo st1] eqn:Eh.
    unfold bind at 1. unfold findOrPutGitHubRepository at 1. simpl.
    destruct (findOrPut endpoint0 (api_repo (api_base pr)) st1) as [baseRepo st2] eqn:Eb.
    unfold bind at 1. rewrite IH. simpl.
    destruct (insertableRows endpoint0 rest st2) as [more st3]. reflexivity.
Qed.

Lemma writePullRequests_run prs repository d s :
  dbID repository = Some d -> d <> 0 ->
  writePullRequests prs repository s = (Ok tt, written prs repository s).
Proof.
  intros Hd Hnz. unfold writePullRequests. rewrite Hd.
  destruct d; try contradiction;
    rewrite (bind_ok _ _ _ _ _ (insertablePRs_run _ _ _)); reflexivity.
Qed.

(** The loop over the pull requests only buffers: it never touches the store. *)
Lemma pullRequestsStatuses_run api repository prs s :
  pullRequestsStatuses api repository prs s = (fetchedStatuses api repository prs, s).
Proof.
  induction prs as [|pr rest IH]; simpl; [reflexivity|].
  unfold bind at 1, await.
  destruct (fetchCombinedRefStatus api _ _ _) as [status0|e]; [|reflexivity].
  unfold bind at 1. rewrite IH.
  destruct (fetchedStatuses api repository rest); reflexivity.
Qed.

Lemma updatePullRequests_fetch_failed repository api s e :
  fetchPullRequests api (login (owner repository)) (name repository) "open" = Err e ->
  updatePullRequests repository api s = (Err e, s).
Proof.
  intros H. unfold updatePullRequests, bind, await. now rewrite H.
Qed.

Lemma updatePullRequests_fatal repository api s prs :
  fetchPullRequests api (login (owner repository)) (name repository) "open" = Ok prs ->
  dbID repository = None \/ dbID repository = Some 0 ->
  updatePullRequests repository api s = (Err (FatalError storeMessage), s).
Proof.
  intros H Hd. unfold updatePullRequests.
  unfold bind at 1, await. rewrite H.
  now rewrite (bind_err _ _ _ _ _ (writePullRequests_fatal prs repository s Hd)).
Qed.

Lemma updatePullRequests_status_failed repository api s prs d e :
  fetchPullRequests api (login (owner repository)) (name repository) "open" = Ok prs ->
  dbID repository = Some d -> d <> 0 ->
  fetchedStatuses api repository (viewOf d (written prs repository s)) = Err e ->
  updatePullRequests repository api s = (Err e, written prs repository s).
Proof.
  intros H Hd Hnz Hst. unfold updatePullRequests.
  unfold bind at 1, await. rewrite H.
  rewrite (bind_ok _ _ _ _ _ (writePullRequests_run prs repository d s Hd Hnz)).
  rewrite (bind_ok _ _ _ _ _ (getPullRequests_run repository d _ Hd Hnz)).
  fold (viewOf d (written prs repository s)).
  apply bind_err. now rewrite pullRequestsStatuses_run, Hst.
Qed.

Lemma updatePullRequests_done repository api s prs d statuses :
  fetchPullRequests api (login (owner repository)) (name repository) "open" = Ok prs ->
  dbID repository = Some d -> d <> 0 ->
  fetchedStatuses api repository (viewOf d (written prs repository s)) = Ok statuses ->
  updatePullRequests repository api s =
  (Ok (viewOf d (attached statuses (written prs repository s))),
   attached statuses (written prs repository s)).
Proof.
  intros H Hd Hnz Hst. unfold updatePullRequests.
  unfold bind at 1, await. rewrite H.
  rewrite (bind_ok _ _ _ _ _ (writePullRequests_run prs repository d s Hd Hnz)).
  rewrite (bind_ok _ _ _ _ _ (getPullRequests_run repository d _ Hd Hnz)).
  fold (viewOf d (written prs repository s)).
  erewrite bind_ok by (rewrite pullRequestsStatuses_run, Hst; reflexivity).
  unfold bind at 1, writePullRequestStatus, modify.
  fold (attached statuses (written prs repository s)).
  rewrite (bind_ok _ _ _ _ _ (getPullRequests_run repository d _ Hd Hnz)).
  reflexivity.
Qed.


Lemma writePullRequests_inv prs repository s sW :
  writePullRequests prs repository s = (Ok tt, sW) ->
  exists d, dbID repository = Some d /\ d <> 0 /\ sW = written prs repository s.
Proof.
  intros H. destruct (dbID repository) as [d|] eqn:Hd.
  - destruct (Z.eq_dec d 0) as [->|Hnz].
    + rewrite writePullRequests_fatal in H by auto. discriminate.
    + exists d. rewrite (writePullRequests_run _ _ d) in H by assumption.
      injection H as <-. auto.
  - rewrite writePullRequests_fatal in H by auto. discriminate.
Qed.

Lemma getPullRequests_inv repository s v s' :
  getPullRequests repository s = (Ok v, s') ->
  exists d, dbID repository = Some d /\ d <> 0 /\ v = viewOf d s /\ s' = s.
Proof.
  intros H. destruct (dbID repository) as [d|] eqn:Hd.
  - destruct (Z.eq_dec d 0) as [->|Hnz].
    + rewrite getPullRequests_fatal in H by auto. discriminate.
    + exists d. rewrite (getPullRequests_run _ d) in H by assumption.
      injection H as <- <-. auto.
  - rewrite getPullRequests_fatal in H by auto. discriminate.
Qed.

Lemma fetchedStatuses_failure api repository prs p e :
  In p prs ->
  fetchCombinedRefStatus api (login (owner repository)) (name repository) (sha (head p)) = Err e ->
  exists e', fetchedStatuses api repository prs = Err e'.
Proof.
  intros Hin Hp. induction prs as [|q rest IH]; [contradiction|]. simpl.
  destruct (fetchCombinedRefStatus api _ _ (sha (head q))) as [st|e1] eqn:Hq.
  - destruct Hin as [->|Hin]; [congruence|].
    destruct (IH Hin) as [e' ->]. eauto.
  - eauto.
Qed.

(** A refresh that returns hands out the view of the store it leaves. *)
Lemma updatePullRequests_returns_view repository api s0 v s :
  updatePullRequests repository api s0 = (Ok v, s) ->
  getPullRequests repository s = (Ok v, s).
Proof.
  intros H.
  destruct (fetchPullRequests api (login (owner repository)) (name repository) "open")
    as [prs|e] eqn:Hf.
  2:{ rewrite (updatePullRequests_fetch_failed _ _ _ _ Hf) in H. discriminate. }
  destruct (dbID repository) as [d|] eqn:Hd.
  2:{ rewrite (updatePullRequests_fatal _ _ _ _ Hf) in H by auto. discriminate. }
  destruct (Z.eq_dec d 0) as [->|Hnz].
  { rewrite (updatePullRequests_fatal _ _ _ _ Hf) in H by auto. discriminate. }
  destruct (fetchedStatuses api repository (viewOf d (written prs repository s0)))
    as [statuses|e] eqn:Hs.
  - rewrite (updatePullRequests_done _ _ _ _ _ _ Hf Hd Hnz Hs) in H.
    injection H as <- <-. now apply getPullRequests_run.
  - rewrite (updatePullRequests_status_failed _ _ _ _ _ _ Hf Hd Hnz Hs) in H. discriminate.
Qed.

(** ** Failed requests, status lookup, references and ordering *)

(** C3. If the remote fetch of the open pull requests fails, the refresh
    aborts with that error and the store (both tables) is unchanged:
    [getPullRequests] after the failed call returns what it returned
    before. *)
Theorem failed_fetch_leaves_the_cache repository api s e :
  fetchPullRequests api (login (owner repository)) (name repository) "open" = Err e ->
  updatePullRequests repository api s = (Err e, s) /\
  db (snd (updatePullRequests repository api s)) = db s /\
  fst (getPullRequests repository (snd (updatePullRequests repository api s)))
  = fst (getPullRequests repository s).
Proof.
  intros H. rewrite (updatePullRequests_fetch_failed _ _ _ _ H). auto.
Qed.

Lemma failed_fetch_leaves_the_cache_witness :
  updatePullRequests dugite offline dugiteCached = (Err (APIError "offline"), dugiteCached) /\
  db (snd (updatePullRequests dugite offline dugiteCached)) = db dugiteCached /\
  fst (getPullRequests dugite (snd (updatePullRequests dugite offline dugiteCached)))
  = fst (getPullRequests dugite dugiteCached).
Proof.
  apply (failed_fetch_leaves_the_cache dugite offline dugiteCached (APIError "offline")).
  reflexivity.
Defined.

(** C1, on the code: refreshing desktop removes the cached pull request of
    dugite.  [table.clear()] empties the whole table, while the read side
    asks for the rows of one repository. *)
Theorem refresh_clears_the_other_repository :
  (exists p, fst (getPullRequests dugite dugiteCached) = Ok [p] /\ number p = 7) /\
  (exists v, fst (updatePullRequests desktop allGreen dugiteCached) = Ok v) /\
  fst (getPullRequests dugite (snd (updatePullRequests desktop allGreen dugiteCached))) = Ok [] /\
  filter (baseRepoIs 2) (pullRequestRows (snd (updatePullRequests desktop allGreen dugiteCached)))
  = [].
Proof.
  repeat split.
  - eexists. split; reflexivity.
  - eexists. reflexivity.
Qed.

Lemma find_first {T : Type} (p : T -> bool) (l : list T) (x : T) :
  find p l = Some x ->
  exists before after,
    l = before ++ x :: after /\ p x = true /\ Forall (fun y => p y = false) before.
Proof.
  induction l as [|y l IH]; simpl; [discriminate|].
  destruct (p y) eqn:Ey.
  - intros [= ->]. exists [], l. auto.
  - intros H. destruct (IH H) as (before & after & -> & Hx & Hb).
    exists (y :: before), after. auto.
Qed.

Lemma find_some_of_In {T : Type} (p : T -> bool) (l : list T) (x : T) :
  In x l -> p x = true -> exists y, find p l = Some y.
Proof.
  intros Hin Hp. destruct (find p l) eqn:E; [eauto|].
  now rewrite (find_none _ _ E x Hin) in Hp.
Qed.

(** C2, as stated, fails: with two status rows under the key of pull request
    1, the lookup answers the older row, not the one appended last. *)
Lemma status_lookup_answers_the_older_row :
  mostRecentlyAppended "sha5" 1 twoStatuses = Some (2, newerStatus) /\
  fst (getPullRequestStatusById "sha5" 1 twoStatuses) <> Ok (Some (toStatus (2, newerStatus))) /\
  fst (getPullRequestStatusById "sha5" 1 twoStatuses) = Ok (Some (toStatus (1, olderStatus))).
Proof.
  split; [reflexivity|]. split; [|reflexivity].
  vm_compute. discriminate.
Qed.

(** C2, amended.  For every key (sha, pullRequestId) under which a status row
    is recorded, [getPullRequestStatusById] answers exactly one status, built
    from the row appended first among those under the key: [limit(1).first()]
    takes the head of the matching rows in storage order. *)
Theorem status_lookup_answers_the_first_row sha0 pullRequestId0 s r0 :
  In r0 (statusRows s) ->
  statusKeyIs sha0 pullRequestId0 r0 = true ->
  exists r before after,
    getPullRequestStatusById sha0 pullRequestId0 s = (Ok (Some (toStatus r)), s) /\
    statusRows s = before ++ r :: after /\
    statusKeyIs sha0 pullRequestId0 r = true /\
    Forall (fun y => statusKeyIs sha0 pullRequestId0 y = false) before.
Proof.
  intros Hin Hkey.
  destruct (find_some_of_In _ _ _ Hin Hkey) as [r Hr].
  destruct (find_first _ _ _ Hr) as (before & after & Hl & Hp & Hb).
  exists r, before, after. repeat split; auto.
  rewrite getPullRequestStatusById_run. unfold statusFor. now rewrite Hr.
Qed.

Lemma status_lookup_answers_the_first_row_witness :
  exists r before after,
    getPullRequestStatusById "sha5" 1 twoStatuses = (Ok (Some (toStatus r)), twoStatuses) /\
    statusRows twoStatuses = before ++ r :: after /\
    statusKeyIs "sha5" 1 r = true /\
    Forall (fun y => statusKeyIs "sha5" 1 y = false) before.
Proof.
  apply (status_lookup_answers_the_first_row "sha5" 1 twoStatuses (2, newerStatus)).
  - simpl. right. left. reflexivity.
  - reflexivity.
Defined.

(** C5, on the code: the head repository 9 of the cached pull request is
    unknown to the repositories store; the view build neither skips the row
    nor fails, and hands out the pull request with a null repository in
    its head, against the non-null assertion [!] it puts on the lookup. *)
Lemma unresolved_head_is_handed_out :
  fst (findGitHubRepositoryByID 9 danglingHead) = Ok None /\
  exists p, getPullRequests desktop danglingHead = (Ok [p], danglingHead) /\
            number p = 5 /\ gitHubRepository (head p) = None.
Proof.
  split; [reflexivity|]. eexists. repeat split.
Qed.

(** What the view build does with the answers of
    [findGitHubRepositoryByID]: it returns one pull request per stored row
    of the repository, in listing order, whose head and base carry the
    answers as they are, null included. *)
Theorem view_carries_the_lookup_answers repository d s :
  dbID repository = Some d -> d <> 0 ->
  exists v,
    getPullRequests repository s = (Ok v, s) /\
    Forall2 (fun row p =>
               id p = fst row /\
               fst (findGitHubRepositoryByID (repoId (row_head (snd row))) s)
               = Ok (gitHubRepository (head p)) /\
               fst (findGitHubRepositoryByID (repoId (row_base (snd row))) s)
               = Ok (gitHubRepository (base p)))
            (listByRepository d s) v.
Proof.
  intros Hd Hnz. exists (viewOf d s). split.
  - now apply getPullRequests_run.
  - unfold viewOf. induction (listByRepository d s) as [|row l IH]; simpl.
    + constructor.
    + constructor; [|exact IH]. repeat split.
Qed.

Lemma view_carries_the_lookup_answers_witness :
  exists v,
    getPullRequests desktop danglingHead = (Ok v, danglingHead) /\
    Forall2 (fun row p =>
               id p = fst row /\
               fst (findGitHubRepositoryByID (repoId (row_head (snd row))) danglingHead)
               = Ok (gitHubRepository (head p)) /\
               fst (findGitHubRepositoryByID (repoId (row_base (snd row))) danglingHead)
               = Ok (gitHubRepository (base p)))
            (listByRepository 1 danglingHead) v.
Proof.
  apply (view_carries_the_lookup_answers desktop 1 danglingHead).
  - reflexivity.
  - lia.
Defined.

(** C6, as stated, fails: the refresh of a repository without [dbID] asks
    the remote first, and a rejected request is what the caller receives,
    not the fatal error. *)
Lemma refresh_of_unsaved_repository_offline :
  dbID unsaved = None /\
  updatePullRequests unsaved offline emptyStore = (Err (APIError "offline"), emptyStore) /\
  forall msg, fst (updatePullRequests unsaved offline emptyStore) <> Err (FatalError msg).
Proof.
  split; [reflexivity|]. split; [reflexivity|].
  intros msg. vm_compute. discriminate.
Qed.

(** C6, amended.  On a repository without [dbID], [getPullRequests] throws
    the fatal error, and so does [updatePullRequests] once the remote has
    answered the request for the open pull requests; when that request is
    rejected, the refresh throws the rejection.  Neither call returns a
    sequence, and the store is left untouched. *)
Theorem no_local_identity_is_fatal repository api s :
  dbID repository = None ->
  getPullRequests repository s = (Err (FatalError getMessage), s) /\
  (forall prs,
     fetchPullRequests api (login (owner repository)) (name repository) "open" = Ok prs ->
     updatePullRequests repository api s = (Err (FatalError storeMessage), s)) /\
  (forall e,
     fetchPullRequests api (login (owner repository)) (name repository) "open" = Err e ->
     updatePullRequests repository api s = (Err e, s)) /\
  (forall v, fst (updatePullRequests repository api s) <> Ok v) /\
  (forall v, fst (getPullRequests repository s) <> Ok v).
Proof.
  intros Hd.
  assert (Hget := getPullRequests_fatal repository s (or_introl Hd)).
  split; [exact Hget|].
  split; [intros prs Hf; apply (updatePullRequests_fatal _ _ _ prs); auto|].
  split; [intros e Hf; now apply updatePullRequests_fetch_failed|].
  split.
  - intros v.
    destruct (fetchPullRequests api (login (owner repository)) (name repository) "open")
      as [prs|e] eqn:Hf.
    + rewrite (updatePullRequests_fatal _ _ _ prs) by auto. discriminate.
    + rewrite (updatePullRequests_fetch_failed _ _ _ e) by auto. discriminate.
  - intros v. rewrite Hget. discriminate.
Qed.

Lemma no_local_identity_is_fatal_witness :
  getPullRequests unsaved emptyStore = (Err (FatalError getMessage), emptyStore) /\
  (forall prs,
     fetchPullRequests allGreen (login (owner unsaved)) (name unsaved) "open" = Ok prs ->
     updatePullRequests unsaved allGreen emptyStore = (Err (FatalError storeMessage), emptyStore)) /\
  (forall e,
     fetchPullRequests allGreen (login (owner unsaved)) (name unsaved) "open" = Err e ->
     updatePullRequests unsaved allGreen emptyStore = (Err e, emptyStore)) /\
  (forall v, fst (updatePullRequests unsaved allGreen emptyStore) <> Ok v) /\
  (forall v, fst (getPullRequests unsaved emptyStore) <> Ok v).
Proof.
  apply (no_local_identity_is_fatal unsaved allGreen emptyStore).
  reflexivity.
Defined.

(** C9. A cached pull request of the repository under whose key
    (head sha, id) no status row is recorded is part of the view, with a
    null status: [getPullRequests] succeeds and the missing status is not
    an error. *)
Theorem missing_status_is_null repository d s row :
  dbID repository = Some d -> d <> 0 ->
  In row (pullRequestRows s) ->
  repoId (row_base (snd row)) = d ->
  (forall r, In r (statusRows s) ->
             statusKeyIs (row_sha (row_head (snd row))) (fst row) r = false) ->
  fst (getPullRequestStatusById (row_sha (row_head (snd row))) (fst row) s) = Ok None /\
  exists v p,
    getPullRequests repository s = (Ok v, s) /\
    In p v /\ id p = fst row /\ number p = row_number (snd row) /\
    sha (head p) = row_sha (row_head (snd row)) /\ status p = None.
Proof.
  intros Hd Hnz Hin Hbase Hnone.
  assert (Hst : statusFor (row_sha (row_head (snd row))) (fst row) s = None).
  { unfold statusFor.
    destruct (find _ (statusRows s)) as [r|] eqn:E; [|reflexivity].
    destruct (find_some _ _ E) as [Hr Hk]. rewrite (Hnone r Hr) in Hk. discriminate. }
  split.
  - rewrite getPullRequestStatusById_run. simpl. now rewrite Hst.
  - exists (viewOf d s), (built s row).
    split; [now apply getPullRequests_run|].
    split; [apply in_map, listByRepository_In; auto|].
    simpl. auto.
Qed.

Lemma missing_status_is_null_witness :
  fst (getPullRequestStatusById "sha5" 2 partlyAttached) = Ok None /\
  exists v p,
    getPullRequests desktop partlyAttached = (Ok v, partlyAttached) /\
    In p v /\ id p = 2 /\ number p = 5 /\ sha (head p) = "sha5"%string /\ status p = None.
Proof.
  apply (missing_status_is_null desktop 1 partlyAttached
           (2, storedPullRequest 5 "five" "sha5" 2 1)).
  - reflexivity.
  - lia.
  - right. left. reflexivity.
  - reflexivity.
  - intros r [<-|[]]. reflexivity.
Defined.

Lemma descending_without_ties l :
  StronglySorted numberGe l ->
  NoDup (map (fun r => row_number (snd r)) l) ->
  StronglySorted Z.gt (map (fun r => row_number (snd r)) l).
Proof.
  induction 1 as [|x l Hs IH Hall]; simpl; intros Hnd; [constructor|].
  inversion Hnd as [|? ? Hnotin Hnd']; subst.
  constructor; [auto|].
  rewrite Forall_forall in *. intros n Hn.
  apply in_map_iff in Hn as (y & <- & Hy).
  specialize (Hall y Hy). unfold numberGe in Hall.
  assert (row_number (snd y) <> row_number (snd x)).
  { intros E. apply Hnotin. rewrite <- E.
    now apply (in_map (fun r => row_number (snd r))). }
  lia.
Qed.

Lemma view_numbers d s :
  map number (viewOf d s) = map (fun r => row_number (snd r)) (listByRepository d s).
Proof. unfold viewOf. rewrite map_map. reflexivity. Qed.

Lemma descending_numbers l :
  Sorted numberGe l -> Sorted Z.ge (map (fun r => row_number (snd r)) l).
Proof.
  induction 1 as [|x l Hs IH Hhd]; simpl; [constructor|].
  constructor; [exact IH|].
  destruct Hhd as [|y l Hxy]; simpl; constructor. unfold numberGe in Hxy. lia.
Qed.

(** Whatever the numbers, the view is sorted by descending number. *)
Lemma view_is_sorted_by_number d s :
  Sorted Z.ge (map number (viewOf d s)).
Proof.
  rewrite view_numbers. apply descending_numbers, sortByNumberDesc_sorted.
Qed.

(** Two cached rows with the same number both show, with the row inserted
    last first. *)
Lemma view_keeps_equal_numbers :
  map (fun p => (number p, id p)) (viewOf 1 sameNumberTwice) = [(5, 2); (5, 1)].
Proof. reflexivity. Qed.

(** ** Refreshing twice *)

Lemma find_app_found {T : Type} (p : T -> bool) (l l' : list T) (x : T) :
  find p l = Some x -> find p (l ++ l') = Some x.
Proof.
  induction l as [|y l IH]; simpl; [discriminate|].
  destruct (p y); auto.
Qed.

Lemma extends_refl st : extends st st.
Proof. exists []. now rewrite app_nil_r. Qed.

Lemma extends_trans st1 st2 st3 : extends st1 st2 -> extends st2 st3 -> extends st1 st3.
Proof.
  intros [a Ha] [b Hb]. exists (a ++ b). now rewrite Hb, Ha, app_assoc.
Qed.

Lemma found_in_extension p st st' g :
  extends st st' ->
  find p (repositories st) = Some g -> find p (repositories st') = Some g.
Proof. intros [a ->]. apply find_app_found. Qed.

Lemma findOrPut_found endpoint0 r st g :
  find (sameRepository endpoint0 r) (repositories st) = Some g ->
  findOrPut endpoint0 r st = (g, st).
Proof. intros H. unfold findOrPut. now rewrite H. Qed.

Lemma findOrPut_extends endpoint0 r st :
  extends st (snd (findOrPut endpoint0 r st)).
Proof.
  unfold findOrPut. destruct (find _ _); simpl.
  - apply extends_refl.
  - eexists. reflexivity.
Qed.

Lemma findOrPut_then_found endpoint0 r st :
  find (sameRepository endpoint0 r) (repositories (snd (findOrPut endpoint0 r st)))
  = Some (fst (findOrPut endpoint0 r st)).
Proof.
  unfold findOrPut.
  destruct (find _ (repositories st)) as [g|] eqn:E; simpl; [exact E|].
  induction (repositories st) as [|y l IH]; simpl in *.
  - unfold sameRepository. simpl. now rewrite !String.eqb_refl.
  - destruct (sameRepository endpoint0 r y); [discriminate|]. auto.
Qed.

Lemma insertableRows_extends endpoint0 prs st :
  extends st (snd (insertableRows endpoint0 prs st)).
Proof.
  revert st. induction prs as [|pr rest IH]; intros st; simpl.
  - apply extends_refl.
  - pose proof (findOrPut_extends endpoint0 (api_repo (api_head pr)) st) as H1.
    destruct (findOrPut endpoint0 (api_repo (api_head pr)) st) as [headRepo st1].
    pose proof (findOrPut_extends endpoint0 (api_repo (api_base pr)) st1) as H2.
    destruct (findOrPut endpoint0 (api_repo (api_base pr)) st1) as [baseRepo st2].
    pose proof (IH st2) as H3.
    destruct (insertableRows endpoint0 rest st2) as [more st3]. simpl in *.
    eauto using extends_trans.
Qed.

(** Resolving the same pull requests again, on the store the first
    resolution left or on a later one, yields the same rows and adds no
    repository. *)
Lemma insertableRows_again endpoint0 prs st st' :
  extends (snd (insertableRows endpoint0 prs st)) st' ->
  insertableRows endpoint0 prs st' = (fst (insertableRows endpoint0 prs st), st').
Proof.
  revert st. induction prs as [|pr rest IH]; intros st; simpl; [reflexivity|].
  pose proof (findOrPut_then_found endpoint0 (api_repo (api_head pr)) st) as F1.
  destruct (findOrPut endpoint0 (api_repo (api_head pr)) st) as [headRepo st1].
  pose proof (findOrPut_then_found endpoint0 (api_repo (api_base pr)) st1) as F2.
  pose proof (findOrPut_extends endpoint0 (api_repo (api_base pr)) st1) as E2.
  destruct (findOrPut endpoint0 (api_repo (api_base pr)) st1) as [baseRepo st2].
  pose proof (insertableRows_extends endpoint0 rest st2) as E3.
  specialize (IH st2).
  destruct (insertableRows endpoint0 rest st2) as [more st3]. simpl in *.
  intros E.
  assert (E23 : extends st2 st') by eauto using extends_trans.
  assert (E13 : extends st1 st') by eauto using extends_trans.
  rewrite (findOrPut_found _ _ _ _ (found_in_extension _ _ _ _ E13 F1)).
  rewrite (findOrPut_found _ _ _ _ (found_in_extension _ _ _ _ E23 F2)).
  rewrite (IH E). reflexivity.
Qed.

Lemma assignKeys_rows {T : Type} (k : Z) (items : list T) :
  map snd (Table.assignKeys k items) = items.
Proof.
  revert k. induction items as [|x rest IH]; intros k; simpl; [reflexivity|].
  now rewrite IH.
Qed.

Lemma written_rows prs repository s :
  map snd (pullRequestRows (written prs repository s))
  = fst (insertableRows (endpoint repository) prs (repositoriesStore s)).
Proof. unfold written, pullRequestRows. simpl. apply assignKeys_rows. Qed.

Lemma written_again prs repository s s' :
  repositoriesStore s' = repositoriesStore (written prs repository s) ->
  map snd (pullRequestRows (written prs repository s'))
  = map snd (pullRequestRows (written prs repository s)).
Proof.
  intros H. rewrite !written_rows, H. unfold written. simpl.
  rewrite (insertableRows_again _ _ (repositoriesStore s)) by apply extends_refl.
  reflexivity.
Qed.

(** What a refresh that got past the first request leaves, whether or not
    the status requests succeed. *)
Lemma updatePullRequests_store repository api s prs d :
  fetchPullRequests api (login (owner repository)) (name repository) "open" = Ok prs ->
  dbID repository = Some d -> d <> 0 ->
  pullRequests (db (snd (updatePullRequests repository api s)))
  = pullRequests (db (written prs repository s)) /\
  repositoriesStore (snd (updatePullRequests repository api s))
  = repositoriesStore (written prs repository s).
Proof.
  intros Hf Hd Hnz.
  destruct (fetchedStatuses api repository (viewOf d (written prs repository s)))
    as [statuses|e] eqn:Hs.
  - rewrite (updatePullRequests_done _ _ _ _ _ _ Hf Hd Hnz Hs). auto.
  - rewrite (updatePullRequests_status_failed _ _ _ _ _ _ Hf Hd Hnz Hs). auto.
Qed.

Lemma view_logical d s1 s2 :
  map snd (pullRequestRows s1) = map snd (pullRequestRows s2) ->
  map numberAndTitle (viewOf d s1) = map numberAndTitle (viewOf d s2) /\
  map (fun p => sha (head p)) (viewOf d s1) = map (fun p => sha (head p)) (viewOf d s2).
Proof.
  intros H. apply (listByRepository_rows d) in H. unfold viewOf.
  rewrite !map_map. split.
  - change (map (fun r => (row_number (snd r), row_title (snd r))) (listByRepository d s1)
          = map (fun r => (row_number (snd r), row_title (snd r))) (listByRepository d s2)).
    rewrite <- !(map_map snd (fun r => (row_number r, row_title r))). now rewrite H.
  - change (map (fun r => row_sha (row_head (snd r))) (listByRepository d s1)
          = map (fun r => row_sha (row_head (snd r))) (listByRepository d s2)).
    rewrite <- !(map_map snd (fun r => row_sha (row_head r))). now rewrite H.
Qed.

Lemma fetchedStatuses_same_shas api repository v v' statuses :
  map (fun p => sha (head p)) v = map (fun p => sha (head p)) v' ->
  fetchedStatuses api repository v = Ok statuses ->
  exists statuses', fetchedStatuses api repository v' = Ok statuses'.
Proof.
  revert v' statuses.
  induction v as [|p v IH]; intros [|p' v'] statuses Hm; simpl in *; try discriminate.
  - eauto.
  - injection Hm as Hp Hm. rewrite <- Hp.
    destruct (fetchCombinedRefStatus api _ _ (sha (head p))); [|discriminate].
    destruct (fetchedStatuses api repository v) as [more|] eqn:E; [|discriminate].
    intros _. destruct (IH v' more Hm eq_refl) as [more' ->]. eauto.
Qed.

Lemma view_rows_of_attached d statuses s :
  map numberAndTitle (viewOf d (attached statuses s)) = map numberAndTitle (viewOf d s).
Proof. now apply view_logical. Qed.

(** C7. Two refreshes in succession against the same remote answers leave
    the same logical rows in the view: the (number, title) pairs
    [getPullRequests] returns after the second refresh are those it returns
    after the first, in the same order and so in the same number; and when
    the first refresh returns, so does the second, with the same
    (number, title) pairs.  The storage ids of the rows are not compared. *)
Theorem refresh_twice_same_logical_rows repository api s :
  let s1 := snd (updatePullRequests repository api s) in
  let s2 := snd (updatePullRequests repository api s1) in
  logicalRows (fst (getPullRequests repository s2))
  = logicalRows (fst (getPullRequests repository s1)) /\
  forall v1,
    fst (updatePullRequests repository api s) = Ok v1 ->
    exists v2,
      fst (updatePullRequests repository api s1) = Ok v2 /\
      map numberAndTitle v2 = map numberAndTitle v1 /\
      List.length v2 = List.length v1.
Proof.
  intros s1 s2. subst s2.
  destruct (fetchPullRequests api (login (owner repository)) (name repository) "open")
    as [prs|e] eqn:Hf.
  2:{ assert (H1 : forall s0, updatePullRequests repository api s0 = (Err e, s0))
        by (intros; now apply updatePullRequests_fetch_failed).
      subst s1. repeat (rewrite H1; simpl).
      split; [reflexivity|discriminate]. }
  assert (Hfatal : dbID repository = None \/ dbID repository = Some 0 ->
                   forall s0, updatePullRequests repository api s0
                              = (Err (FatalError storeMessage), s0))
    by (intros; now apply (updatePullRequests_fatal _ _ _ prs)).
  destruct (dbID repository) as [d|] eqn:Hd.
  2:{ subst s1. repeat (rewrite Hfatal by auto; simpl).
      split; [reflexivity|discriminate]. }
  destruct (Z.eq_dec d 0) as [->|Hnz].
  { subst s1. repeat (rewrite Hfatal by auto; simpl).
    split; [reflexivity|discriminate]. }
  clear Hfatal.
  destruct (updatePullRequests_store repository api s prs d Hf Hd Hnz) as [P1 R1].
  fold s1 in P1, R1.
  destruct (updatePullRequests_store repository api s1 prs d Hf Hd Hnz) as [P2 R2].
  assert (Hw : map snd (pullRequestRows (written prs repository s1))
               = map snd (pullRequestRows (written prs repository s)))
    by now apply written_again.
  split.
  - rewrite !(getPullRequests_run repository d) by assumption. simpl.
    fold (viewOf d (snd (updatePullRequests repository api s1))). fold (viewOf d s1).
    f_equal. apply view_logical.
    unfold pullRequestRows in *. now rewrite P2, P1.
  - intros v1 Hv1.
    destruct (fetchedStatuses api repository (viewOf d (written prs repository s)))
      as [statuses|e] eqn:Hs.
    2:{ rewrite (updatePullRequests_status_failed _ _ _ _ _ _ Hf Hd Hnz Hs) in Hv1.
        discriminate. }
    rewrite (updatePullRequests_done _ _ _ _ _ _ Hf Hd Hnz Hs) in Hv1.
    injection Hv1 as <-.
    destruct (view_logical d _ _ Hw) as [Hrows Hshas].
    destruct (fetchedStatuses_same_shas api repository _ _ _ (eq_sym Hshas) Hs)
      as [statuses' Hs'].
    rewrite (updatePullRequests_done _ _ _ _ _ _ Hf Hd Hnz Hs'). simpl.
    eexists. split; [reflexivity|].
    assert (E : map numberAndTitle (viewOf d (attached statuses' (written prs repository s1)))
                = map numberAndTitle (viewOf d (attached statuses (written prs repository s)))).
    { now rewrite !view_rows_of_attached. }
    split; [exact E|].
    apply (f_equal (@List.length _)) in E. now rewrite !length_map in E.
Qed.

Lemma refresh_twice_same_logical_rows_witness :
  fst (updatePullRequests desktop allGreen emptyStore)
  = Ok (viewOf 1 (snd (updatePullRequests desktop allGreen emptyStore))) /\
  exists v2,
    fst (updatePullRequests desktop allGreen
           (snd (updatePullRequests desktop allGreen emptyStore))) = Ok v2 /\
    map numberAndTitle v2
    = map numberAndTitle (viewOf 1 (snd (updatePullRequests desktop allGreen emptyStore))) /\
    List.length v2
    = List.length (viewOf 1 (snd (updatePullRequests desktop allGreen emptyStore))).
Proof.
  split; [reflexivity|].
  apply (proj2 (refresh_twice_same_logical_rows desktop allGreen emptyStore)).
  reflexivity.
Defined.

(** The scenario of the specification: after a first refresh the view holds
    #5 and #3, in this order, and it still does after a second one. *)
Lemma refresh_twice_five_and_three :
  logicalRows (fst (updatePullRequests desktop allGreen emptyStore))
  = Ok [(5, "five"%string); (3, "three"%string)] /\
  logicalRows (fst (updatePullRequests desktop allGreen
                      (snd (updatePullRequests desktop allGreen emptyStore))))
  = Ok [(5, "five"%string); (3, "three"%string)] /\
  map id (viewOf 1 (snd (updatePullRequests desktop allGreen emptyStore))) = [2; 1] /\
  map id (viewOf 1 (snd (updatePullRequests desktop allGreen
                           (snd (updatePullRequests desktop allGreen emptyStore))))) = [4; 3].
Proof. repeat split. Qed.

(** ** A successful refresh *)

Lemma assignKeys_keys {T : Type} (k : Z) (items : list T) (r : Z * T) :
  In r (Table.assignKeys k items) ->
  k <= fst r < k + Z.of_nat (List.length items) /\ In (snd r) items.
Proof.
  revert k. induction items as [|x rest IH]; intros k; simpl; [contradiction|].
  intros [<-|H]; simpl.
  - split; [lia|auto].
  - destruct (IH _ H). split; [lia|auto].
Qed.


Lemma insertableRows_logical endpoint0 prs st :
  map logicalOfRow (fst (insertableRows endpoint0 prs st)) = map logicalOfRemote prs.
Proof.
  revert st. induction prs as [|pr rest IH]; intros st; simpl; [reflexivity|].
  destruct (findOrPut endpoint0 (api_repo (api_head pr)) st) as [headRepo st1].
  destruct (findOrPut endpoint0 (api_repo (api_base pr)) st1) as [baseRepo st2].
  specialize (IH st2).
  destruct (insertableRows endpoint0 rest st2) as [more st3]. simpl in *.
  now rewrite IH.
Qed.

Lemma resolvesTo_extends repository d st st' :
  extends st st' -> resolvesTo repository d st -> resolvesTo repository d st'.
Proof.
  intros E (g & Hg & Hd). exists g. split; [|exact Hd].
  eapply found_in_extension; eassumption.
Qed.






Lemma fetchedStatuses_all api repository v :
  (forall p, In p v ->
     exists st, fetchCombinedRefStatus api (login (owner repository)) (name repository)
                                       (sha (head p)) = Ok st) ->
  exists statuses,
    fetchedStatuses api repository v = Ok statuses /\
    Forall2 (fun p row =>
               exists st, fetchCombinedRefStatus api (login (owner repository))
                                                 (name repository) (sha (head p)) = Ok st /\
                          row = statusRowOf p st)
            v statuses.
Proof.
  induction v as [|p v IH]; intros H; simpl.
  - exists []. split; [reflexivity|constructor].
  - destruct (H p (or_introl eq_refl)) as [st Hst]. rewrite Hst.
    destruct IH as (more & -> & Hmore); [intros q Hq; apply H; now right|].
    exists (statusRowOf p st :: more). split; [reflexivity|].
    constructor; eauto.
Qed.



Lemma statusKeyIs_true sha0 id0 r :
  statusKeyIs sha0 id0 r = true <->
  status_row_sha (snd r) = sha0 /\ pullRequestId (snd r) = id0.
Proof.
  unfold statusKeyIs. now rewrite andb_true_iff, String.eqb_eq, Z.eqb_eq.
Qed.

Lemma written_row_sha repository prs s row :
  In row (pullRequestRows (written prs repository s)) ->
  Table.nextKey (pullRequests (db s)) <= fst row /\
  exists pr, In pr prs /\ logicalOfRemote pr = logicalOfRow (snd row).
Proof.
  intros H. unfold written, pullRequestRows in H. simpl in H.
  apply assignKeys_keys in H as [Hk Hr]. split; [lia|].
  apply (in_map logicalOfRow) in Hr. rewrite insertableRows_logical in Hr.
  apply in_map_iff in Hr as (pr & E & Hpr). eauto.
Qed.


Lemma fetchedStatuses_ids api repository v statuses :
  fetchedStatuses api repository v = Ok statuses ->
  map pullRequestId statuses = map id v.
Proof.
  revert statuses. induction v as [|p v IH]; simpl; intros statuses.
  - now intros [= <-].
  - destruct (fetchCombinedRefStatus api _ _ _); [|discriminate].
    destruct (fetchedStatuses api repository v) as [more|]; [|discriminate].
    intros [= <-]. simpl. now rewrite (IH more eq_refl).
Qed.

(** The two hypotheses on the store are invariants of the refresh. *)
Lemma statusTableOK_empty : statusTableOK emptyStore.
Proof. intros r []. Qed.

Lemma statusTableOK_refresh repository api s :
  statusTableOK s -> statusTableOK (snd (updatePullRequests repository api s)).
Proof.
  intros Hwf.
  destruct (fetchPullRequests api (login (owner repository)) (name repository) "open")
    as [prs|e] eqn:Hf.
  2:{ now rewrite (updatePullRequests_fetch_failed _ _ _ _ Hf). }
  destruct (dbID repository) as [d|] eqn:Hd.
  2:{ rewrite (updatePullRequests_fatal _ _ _ _ Hf) by auto. exact Hwf. }
  destruct (Z.eq_dec d 0) as [->|Hnz].
  { rewrite (updatePullRequests_fatal _ _ _ _ Hf) by auto. exact Hwf. }
  assert (Hold : forall r, In r (statusRows s) ->
            pullRequestId (snd r) < Table.nextKey (pullRequests (db (written prs repository s)))).
  { intros r Hr. specialize (Hwf r Hr). unfold written. simpl. lia. }
  destruct (fetchedStatuses api repository (viewOf d (written prs repository s)))
    as [statuses|e] eqn:Hs.
  2:{ rewrite (updatePullRequests_status_failed _ _ _ _ _ _ Hf Hd Hnz Hs). exact Hold. }
  rewrite (updatePullRequests_done _ _ _ _ _ _ Hf Hd Hnz Hs). simpl.
  intros r Hr. unfold attached, statusRows in Hr. simpl in Hr.
  apply in_app_or in Hr as [Hr|Hr]; [now apply Hold|].
  apply assignKeys_keys in Hr as [_ Hr].
  apply (in_map pullRequestId) in Hr.
  rewrite (fetchedStatuses_ids _ _ _ _ Hs) in Hr.
  unfold viewOf in Hr. rewrite map_map in Hr.
  apply in_map_iff in Hr as (row & Hid & Hrow). simpl in Hid.
  apply listByRepository_In in Hrow as [Hrow _].
  unfold written, pullRequestRows in Hrow. simpl in Hrow.
  apply assignKeys_keys in Hrow as [Hk _].
  unfold attached, written. simpl. lia.
Qed.

Lemma resolvesTo_refresh repository d repository' api s :
  resolvesTo repository d (repositoriesStore s) ->
  resolvesTo repository d (repositoriesStore (snd (updatePullRequests repository' api s))).
Proof.
  intros Hres.
  destruct (fetchPullRequests api (login (owner repository')) (name repository') "open")
    as [prs|e] eqn:Hf.
  2:{ now rewrite (updatePullRequests_fetch_failed _ _ _ _ Hf). }
  destruct (dbID repository') as [d'|] eqn:Hd.
  2:{ rewrite (updatePullRequests_fatal _ _ _ _ Hf) by auto. exact Hres. }
  destruct (Z.eq_dec d' 0) as [->|Hnz].
  { rewrite (updatePullRequests_fatal _ _ _ _ Hf) by auto. exact Hres. }
  destruct (updatePullRequests_store repository' api s prs d' Hf Hd Hnz) as [_ ->].
  eapply resolvesTo_extends; [|exact Hres].
  unfold written. simpl. apply insertableRows_extends.
Qed.

(** * Further properties of the store *)

(** ** The read side *)

(** X1. [getPullRequests] only reads: whatever the repository, the store after
    the call is the store before it. *)
Theorem getPullRequests_reads_only repository s :
  snd (getPullRequests repository s) = s.
Proof.
  destruct (dbID repository) as [d|] eqn:Hd.
  - destruct (Z.eq_dec d 0) as [->|Hnz].
    + now rewrite getPullRequests_fatal by auto.
    + now rewrite (getPullRequests_run repository d).
  - now rewrite getPullRequests_fatal by auto.
Qed.

(** X2. The view of a repository holds the cached rows whose [base.repoId] is
    the repository's [dbID], each once and only those: ids and remote
    fields of the view are a rearrangement of those of these rows. *)
Theorem view_holds_the_rows_of_the_repository repository d s :
  dbID repository = Some d -> d <> 0 ->
  exists v,
    getPullRequests repository s = (Ok v, s) /\
    Permutation (map (fun p => (id p, logicalOf p)) v)
                (map (fun r => (fst r, logicalOfRow (snd r)))
                     (filter (fun r => repoId (row_base (snd r)) =? d) (pullRequestRows s))).
Proof.
  intros Hd Hnz. exists (viewOf d s). split; [now apply getPullRequests_run|].
  unfold viewOf. rewrite map_map.
  change (Permutation
            (map (fun r => (fst r, logicalOfRow (snd r))) (listByRepository d s))
            (map (fun r => (fst r, logicalOfRow (snd r)))
                 (filter (baseRepoIs d) (pullRequestRows s)))).
  apply Permutation_map, listByRepository_perm.
Qed.

Lemma view_holds_the_rows_of_the_repository_witness :
  exists v,
    getPullRequests dugite dugiteCached = (Ok v, dugiteCached) /\
    Permutation (map (fun p => (id p, logicalOf p)) v)
                (map (fun r => (fst r, logicalOfRow (snd r)))
                     (filter (fun r => repoId (row_base (snd r)) =? 2)
                             (pullRequestRows dugiteCached))).
Proof.
  apply (view_holds_the_rows_of_the_repository dugite 2 dugiteCached).
  - reflexivity.
  - lia.
Defined.

Lemma Zge_trans : Relations_1.Transitive Z.ge.
Proof. intros a b c. lia. Qed.

(** X3. Whatever numbers the cached rows carry, repeated ones included, no pull
    request of the view comes before one with a greater number. *)
Theorem view_numbers_never_increase repository d s :
  dbID repository = Some d -> d <> 0 ->
  exists v,
    getPullRequests repository s = (Ok v, s) /\
    StronglySorted Z.ge (map number v).
Proof.
  intros Hd Hnz. exists (viewOf d s). split; [now apply getPullRequests_run|].
  apply Sorted_StronglySorted; [exact Zge_trans|apply view_is_sorted_by_number].
Qed.

Lemma view_numbers_never_increase_witness :
  exists v,
    getPullRequests desktop sameNumberTwice = (Ok v, sameNumberTwice) /\
    StronglySorted Z.ge (map number v).
Proof.
  apply (view_numbers_never_increase desktop 1 sameNumberTwice).
  - reflexivity.
  - lia.
Defined.

(** X4. A status a pull request of the view carries was built from a status
    row recorded under the pull request's id, and is a status of the pull
    request's own head sha. *)
Theorem status_of_the_view_is_for_the_head_sha repository s v s' p st :
  getPullRequests repository s = (Ok v, s') ->
  In p v ->
  status p = Some st ->
  status_sha st = sha (head p) /\
  exists r, In r (statusRows s) /\ pullRequestId (snd r) = id p /\ st = toStatus r.
Proof.
  intros Hg Hp Hst.
  destruct (getPullRequests_inv _ _ _ _ Hg) as (d & _ & _ & -> & _).
  apply in_map_iff in Hp as (row & <- & _). simpl in *.
  unfold statusFor in Hst.
  destruct (find _ (statusRows s)) as [r|] eqn:E; [|discriminate].
  injection Hst as <-.
  destruct (find_some _ _ E) as [Hin Hkey].
  apply statusKeyIs_true in Hkey as [Hsha Hid].
  split; [exact Hsha|]. exists r. auto.
Qed.

Lemma status_of_the_view_is_for_the_head_sha_witness :
  status_sha (toStatus (1, olderStatus))
  = sha (head (built twoStatuses (1, storedPullRequest 5 "five" "sha5" 1 1))) /\
  exists r, In r (statusRows twoStatuses) /\
            pullRequestId (snd r)
            = id (built twoStatuses (1, storedPullRequest 5 "five" "sha5" 1 1)) /\
            toStatus (1, olderStatus) = toStatus r.
Proof.
  apply (status_of_the_view_is_for_the_head_sha desktop twoStatuses
           (viewOf 1 twoStatuses) twoStatuses).
  - reflexivity.
  - left. reflexivity.
  - reflexivity.
Defined.

(** ** The write side *)

Lemma assignKeys_ids {T : Type} (k : Z) (items : list T) :
  map fst (Table.assignKeys k items)
  = map (fun i => k + Z.of_nat i) (seq 0 (List.length items)).
Proof.
  revert k. induction items as [|x rest IH]; intros k; simpl; [reflexivity|].
  f_equal; [lia|].
  rewrite IH, <- seq_shift, map_map. apply map_ext. intros i. lia.
Qed.

(** X5. A refresh that got the open pull requests, on a repository with a
    [dbID], replaces the whole table by the fetched records, whether or not
    the status requests succeed afterwards: the table then holds one row per
    fetched record, in the order fetched, and nothing else; the rows have
    the ids that follow the table's key generator, which moves on by the
    number of records and is not reset by the clearing. *)
Theorem refresh_replaces_the_table repository api d s prs :
  dbID repository = Some d -> d <> 0 ->
  fetchPullRequests api (login (owner repository)) (name repository) "open" = Ok prs ->
  let k := Table.nextKey (pullRequests (db s)) in
  let s' := snd (updatePullRequests repository api s) in
  map (fun r => logicalOfRow (snd r)) (pullRequestRows s') = map logicalOfRemote prs /\
  map fst (pullRequestRows s') = map (fun i => k + Z.of_nat i) (seq 0 (List.length prs)) /\
  Table.nextKey (pullRequests (db s')) = k + Z.of_nat (List.length prs).
Proof.
  intros Hd Hnz Hf k s'.
  destruct (updatePullRequests_store repository api s prs d Hf Hd Hnz) as [P _].
  fold s' in P. unfold pullRequestRows. rewrite P. clear P.
  pose proof (insertableRows_logical (endpoint repository) prs (repositoriesStore s)) as HL.
  assert (Hlen : List.length (fst (insertableRows (endpoint repository) prs
                                                  (repositoriesStore s)))
                 = List.length prs).
  { apply (f_equal (@List.length _)) in HL. now rewrite !length_map in HL. }
  unfold written. simpl. repeat split.
  - rewrite <- (map_map snd logicalOfRow), assignKeys_rows. exact HL.
  - rewrite assignKeys_ids. now rewrite Hlen.
  - now rewrite Hlen.
Qed.

Lemma refresh_replaces_the_table_witness :
  map (fun r => logicalOfRow (snd r))
      (pullRequestRows (snd (updatePullRequests desktop flaky dugiteCached)))
  = map logicalOfRemote fiveAndThree /\
  map fst (pullRequestRows (snd (updatePullRequests desktop flaky dugiteCached)))
  = map (fun i => 2 + Z.of_nat i) (seq 0 (List.length fiveAndThree)) /\
  Table.nextKey (pullRequests (db (snd (updatePullRequests desktop flaky dugiteCached))))
  = 2 + Z.of_nat (List.length fiveAndThree).
Proof.
  apply (refresh_replaces_the_table desktop flaky 1 dugiteCached fiveAndThree).
  - reflexivity.
  - lia.
  - reflexivity.
Defined.

Lemma fetchedStatuses_keys api repository v statuses :
  fetchedStatuses api repository v = Ok statuses ->
  map (fun r => (pullRequestId r, status_row_sha r)) statuses
  = map (fun p => (id p, sha (head p))) v.
Proof.
  revert statuses. induction v as [|p v IH]; simpl; intros statuses.
  - now intros [= <-].
  - destruct (fetchCombinedRefStatus api _ _ _); [|discriminate].
    destruct (fetchedStatuses api repository v) as [more|]; [|discriminate].
    intros [= <-]. simpl. now rewrite (IH more eq_refl).
Qed.

(** X6. The status table is append only.  Whatever a refresh does, the status
    rows recorded before it stay, in place and unchanged, at the head of the
    table; a refresh that returns has appended one row per pull request it
    returns, in the order returned, under the pull request's id and head
    sha; a refresh that throws has appended none. *)
Theorem refresh_only_appends_statuses repository api s :
  exists added,
    statusRows (snd (updatePullRequests repository api s)) = statusRows s ++ added /\
    (forall v, fst (updatePullRequests repository api s) = Ok v ->
       map (fun r => (pullRequestId (snd r), status_row_sha (snd r))) added
       = map (fun p => (id p, sha (head p))) v) /\
    (forall e, fst (updatePullRequests repository api s) = Err e -> added = []).
Proof.
  assert (Hnone : forall e, updatePullRequests repository api s = (Err e, s) ->
    exists added,
      statusRows (snd (updatePullRequests repository api s)) = statusRows s ++ added /\
      (forall v, fst (updatePullRequests repository api s) = Ok v ->
         map (fun r => (pullRequestId (snd r), status_row_sha (snd r))) added
         = map (fun p => (id p, sha (head p))) v) /\
      (forall e, fst (updatePullRequests repository api s) = Err e -> added = [])).
  { intros e ->. exists []. simpl. rewrite app_nil_r.
    split; [reflexivity|]. split; [discriminate|reflexivity]. }
  destruct (fetchPullRequests api (login (owner repository)) (name repository) "open")
    as [prs|e] eqn:Hf.
  2:{ apply (Hnone e). now apply updatePullRequests_fetch_failed. }
  destruct (dbID repository) as [d|] eqn:Hd.
  2:{ eapply Hnone. apply (updatePullRequests_fatal _ _ _ prs); auto. }
  destruct (Z.eq_dec d 0) as [->|Hnz].
  { eapply Hnone. apply (updatePullRequests_fatal _ _ _ prs); auto. }
  clear Hnone.
  destruct (fetchedStatuses api repository (viewOf d (written prs repository s)))
    as [statuses|e] eqn:Hs.
  - rewrite (updatePullRequests_done _ _ _ _ _ _ Hf Hd Hnz Hs). simpl.
    exists (Table.assignKeys (Table.nextKey (pullRequestStatus (db s))) statuses).
    split; [reflexivity|]. split; [|discriminate].
    intros v [= <-].
    rewrite <- (map_map snd (fun r => (pullRequestId r, status_row_sha r))).
    rewrite assignKeys_rows, (fetchedStatuses_keys _ _ _ _ Hs).
    unfold viewOf. rewrite !map_map. reflexivity.
  - rewrite (updatePullRequests_status_failed _ _ _ _ _ _ Hf Hd Hnz Hs). simpl.
    exists []. rewrite app_nil_r.
    split; [reflexivity|]. split; [discriminate|reflexivity].
Qed.

Lemma fetchedStatuses_first_failure api repository before p after e :
  Forall (fun q => exists st,
            fetchCombinedRefStatus api (login (owner repository)) (name repository)
                                   (sha (head q)) = Ok st) before ->
  fetchCombinedRefStatus api (login (owner repository)) (name repository) (sha (head p)) = Err e ->
  fetchedStatuses api repository (before ++ p :: after) = Err e.
Proof.
  intros Hb Hp. induction Hb as [|q before [st Hq] Hb IH]; simpl.
  - now rewrite Hp.
  - now rewrite Hq, IH.
Qed.

(** X7. The status requests are made one after the other in the order of the
    view, and the first rejection ends the refresh: the pull requests
    before it having been answered, the error thrown is the error of that
    request. *)
Theorem first_rejected_status_request_is_thrown repository api s prs sW before p after e :
  fetchPullRequests api (login (owner repository)) (name repository) "open" = Ok prs ->
  writePullRequests prs repository s = (Ok tt, sW) ->
  getPullRequests repository sW = (Ok (before ++ p :: after), sW) ->
  Forall (fun q => exists st,
            fetchCombinedRefStatus api (login (owner repository)) (name repository)
                                   (sha (head q)) = Ok st) before ->
  fetchCombinedRefStatus api (login (owner repository)) (name repository) (sha (head p)) = Err e ->
  updatePullRequests repository api s = (Err e, sW).
Proof.
  intros Hf Hw Hg Hb Hp.
  destruct (writePullRequests_inv _ _ _ _ Hw) as (d & Hd & Hnz & ->).
  destruct (getPullRequests_inv _ _ _ _ Hg) as (d' & Hd' & _ & Hv & _).
  assert (d' = d) as -> by congruence.
  apply (updatePullRequests_status_failed _ _ _ prs d); auto.
  rewrite <- Hv. now apply fetchedStatuses_first_failure.
Qed.

Lemma first_rejected_status_request_is_thrown_witness :
  updatePullRequests desktop flaky emptyStore
  = (Err (APIError "rate limit"), snd (writePullRequests fiveAndThree desktop emptyStore)).
Proof.
  apply (first_rejected_status_request_is_thrown desktop flaky emptyStore fiveAndThree
           (snd (writePullRequests fiveAndThree desktop emptyStore))
           [built (snd (writePullRequests fiveAndThree desktop emptyStore))
                  (2, storedPullRequest 5 "five" "sha5" 1 1)]
           (built (snd (writePullRequests fiveAndThree desktop emptyStore))
                  (1, storedPullRequest 3 "three" "sha3" 1 1))
           []).
  - reflexivity.
  - reflexivity.
  - reflexivity.
  - constructor; [|constructor]. exists twoChecksPassed. reflexivity.
  - reflexivity.
Defined.




(** X9. The guard on [dbID] is a test for a falsy value: a repository whose
    [dbID] is the number 0 is refused like one without [dbID], by
    [getPullRequests] and, once the open pull requests are fetched, by the
    refresh, which then leaves the store as it was. *)
Theorem zero_dbID_is_refused repository api s :
  dbID repository = Some 0 ->
  getPullRequests repository s = (Err (FatalError getMessage), s) /\
  forall prs,
    fetchPullRequests api (login (owner repository)) (name repository) "open" = Ok prs ->
    writePullRequests prs repository s = (Err (FatalError storeMessage), s) /\
    updatePullRequests repository api s = (Err (FatalError storeMessage), s).
Proof.
  intros Hd. split; [apply getPullRequests_fatal; auto|].
  intros prs Hf. split.
  - apply writePullRequests_fatal; auto.
  - apply (updatePullRequests_fatal _ _ _ prs); auto.
Qed.

Lemma zero_dbID_is_refused_witness :
  getPullRequests zeroID dugiteCached = (Err (FatalError getMessage), dugiteCached) /\
  forall prs,
    fetchPullRequests allGreen (login (owner zeroID)) (name zeroID) "open" = Ok prs ->
    writePullRequests prs zeroID dugiteCached = (Err (FatalError storeMessage), dugiteCached) /\
    updatePullRequests zeroID allGreen dugiteCached
    = (Err (FatalError storeMessage), dugiteCached).
Proof.
  apply (zero_dbID_is_refused zeroID allGreen dugiteCached). reflexivity.
Defined.

(** ** References written by a refresh resolve *)

Lemma find_is_some {T : Type} (p : T -> bool) (l : list T) (x : T) :
  In x l -> p x = true -> find p l <> None.
Proof.
  intros Hin Hp E. now rewrite (find_none _ _ E x Hin) in Hp.
Qed.

Lemma found_stays_found {T : Type} (p : T -> bool) (l added : list T) :
  find p l <> None -> find p (l ++ added) <> None.
Proof.
  destruct (find p l) as [x|] eqn:E; [|contradiction].
  intros _. now rewrite (find_app_found _ _ _ _ E).
Qed.

Lemma findOrPut_resolves endpoint0 r st :
  repositoriesOK st ->
  repositoriesOK (snd (findOrPut endpoint0 r st)) /\
  find (hasID (assignedID (fst (findOrPut endpoint0 r st))))
       (repositories (snd (findOrPut endpoint0 r st))) <> None.
Proof.
  intros Hok. unfold findOrPut.
  destruct (find (sameRepository endpoint0 r) (repositories st)) as [g|] eqn:E; simpl.
  - split; [exact Hok|].
    destruct (find_some _ _ E) as [Hin _].
    apply (find_is_some _ _ g Hin).
    unfold repositoriesOK in Hok. rewrite Forall_forall in Hok.
    specialize (Hok g Hin). unfold hasID, assignedID.
    destruct (dbID g); [apply Z.eqb_refl|contradiction].
  - split.
    + unfold repositoriesOK. simpl. apply Forall_app. split; [exact Hok|].
      constructor; [discriminate|constructor].
    + eapply find_is_some; [apply in_or_app; right; left; reflexivity|].
      unfold hasID, assignedID. simpl. apply Z.eqb_refl.
Qed.

Lemma insertableRows_resolve endpoint0 prs st :
  repositoriesOK st ->
  repositoriesOK (snd (insertableRows endpoint0 prs st)) /\
  Forall (fun row =>
            find (hasID (repoId (row_head row)))
                 (repositories (snd (insertableRows endpoint0 prs st))) <> None /\
            find (hasID (repoId (row_base row)))
                 (repositories (snd (insertableRows endpoint0 prs st))) <> None)
         (fst (insertableRows endpoint0 prs st)).
Proof.
  revert st. induction prs as [|pr rest IH]; intros st Hok; simpl.
  - split; [exact Hok|constructor].
  - destruct (findOrPut_resolves endpoint0 (api_repo (api_head pr)) st Hok) as [Hok1 Hh].
    destruct (findOrPut endpoint0 (api_repo (api_head pr)) st) as [headRepo st1].
    simpl in Hok1, Hh.
    destruct (findOrPut_resolves endpoint0 (api_repo (api_base pr)) st1 Hok1) as [Hok2 Hb].
    pose proof (findOrPut_extends endpoint0 (api_repo (api_base pr)) st1) as [a2 E2].
    destruct (findOrPut endpoint0 (api_repo (api_base pr)) st1) as [baseRepo st2].
    simpl in Hok2, Hb, E2.
    destruct (IH st2 Hok2) as [Hok3 Hrest].
    pose proof (insertableRows_extends endpoint0 rest st2) as [a3 E3].
    destruct (insertableRows endpoint0 rest st2) as [more st3].
    simpl in Hok3, Hrest, E3 |- *.
    split; [exact Hok3|].
    constructor; [|exact Hrest]. simpl. rewrite E3. split.
    + apply found_stays_found. rewrite E2. now apply found_stays_found.
    + now apply found_stays_found.
Qed.

(** X10. The write side keeps what the read side relies on.  After a refresh
    that got the open pull requests, on a repositories store whose records
    all have their local id, every pull request of every view is built with
    a head and a base repository: the [head.repoId] and [base.repoId] the
    refresh wrote are ids of records of the repositories store. *)
Theorem refresh_writes_resolvable_references repository api d s prs repository' d' :
  dbID repository = Some d -> d <> 0 ->
  repositoriesOK (repositoriesStore s) ->
  fetchPullRequests api (login (owner repository)) (name repository) "open" = Ok prs ->
  dbID repository' = Some d' -> d' <> 0 ->
  let s' := snd (updatePullRequests repository api s) in
  repositoriesOK (repositoriesStore s') /\
  exists v,
    getPullRequests repository' s' = (Ok v, s') /\
    Forall (fun p => gitHubRepository (head p) <> None /\
                     gitHubRepository (base p) <> None) v.
Proof.
  intros Hd Hnz Hok Hf Hd' Hnz' s'.
  destruct (updatePullRequests_store repository api s prs d Hf Hd Hnz) as [P R].
  fold s' in P, R.
  destruct (insertableRows_resolve (endpoint repository) prs _ Hok) as [Hok' Hrows].
  split; [rewrite R; exact Hok'|].
  exists (viewOf d' s'). split; [now apply getPullRequests_run|].
  apply Forall_forall. intros p Hp.
  apply in_map_iff in Hp as (row & <- & Hrow).
  apply listByRepository_In in Hrow as [Hrow _].
  unfold pullRequestRows in Hrow. rewrite P in Hrow.
  unfold written in Hrow. simpl in Hrow.
  apply assignKeys_keys in Hrow as [_ Hrow].
  rewrite Forall_forall in Hrows. specialize (Hrows _ Hrow).
  simpl. unfold repositoryByID. rewrite R. exact Hrows.
Qed.

Lemma refresh_writes_resolvable_references_witness :
  repositoriesOK (repositoriesStore (snd (updatePullRequests desktop allGreen danglingHead))) /\
  exists v,
    getPullRequests desktop (snd (updatePullRequests desktop allGreen danglingHead))
    = (Ok v, snd (updatePullRequests desktop allGreen danglingHead)) /\
    Forall (fun p => gitHubRepository (head p) <> None /\
                     gitHubRepository (base p) <> None) v.
Proof.
  apply (refresh_writes_resolvable_references desktop allGreen 1 danglingHead fiveAndThree
           desktop 1).
  - reflexivity.
  - lia.
  - repeat constructor; discriminate.
  - reflexivity.
  - reflexivity.
  - lia.
Defined.

(** ** One status row per key *)

Lemma assignKeys_NoDup {T : Type} (k : Z) (items : list T) :
  NoDup (map fst (Table.assignKeys k items)).
Proof.
  revert k. induction items as [|x rest IH]; intros k; simpl; constructor; [|apply IH].
  intros Hin. apply in_map_iff in Hin as (r & Hr & Hin).
  apply assignKeys_keys in Hin as [Hk _]. lia.
Qed.

(** Selecting rows of a table keeps their keys distinct. *)
Lemma selected_keys_distinct {T : Type} (keep : Z * T -> bool) (table : list (Z * T)) :
  NoDup (map fst table) -> NoDup (map fst (filter keep table)).
Proof.
  induction table as [|row table IH]; simpl; intros Hnd; [constructor|].
  inversion Hnd as [|? ? Hfresh Hrest]; subst.
  destruct (keep row); simpl; [|auto].
  constructor; [|auto].
  intros Hin. apply Hfresh.
  apply in_map_iff in Hin as (other & Hkey & Hin). apply filter_In in Hin as [Hin _].
  rewrite <- Hkey. now apply in_map.
Qed.

(** The pull requests of a view read after step 2 have pairwise distinct
    ids, none of them below the key generator the refresh started from. *)
Lemma written_view_ids repository d prs s :
  NoDup (map id (viewOf d (written prs repository s))) /\
  forall p, In p (viewOf d (written prs repository s)) ->
            Table.nextKey (pullRequests (db s)) <= id p.
Proof.
  split.
  - unfold viewOf. rewrite map_map.
    change (NoDup (map fst (listByRepository d (written prs repository s)))).
    eapply Permutation_NoDup.
    + symmetry. apply Permutation_map, listByRepository_perm.
    + apply selected_keys_distinct. unfold written, pullRequestRows. simpl.
      apply assignKeys_NoDup.
  - intros p Hp. apply in_map_iff in Hp as (row & <- & Hrow). simpl.
    apply listByRepository_In in Hrow as [Hrow _].
    now apply written_row_sha in Hrow as [Hk _].
Qed.

(** X11. A refresh never records a second status row under a key.  On a store
    whose status rows have pairwise distinct keys (sha, pullRequestId) and
    refer to ids already handed out, the store a refresh leaves is such a
    store again: the rows it appends are for pull requests with ids the
    table had not handed out before, one row per id. *)
Theorem refresh_keeps_status_keys_unique repository api s :
  statusTableOK s ->
  statusKeysUnique s ->
  statusKeysUnique (snd (updatePullRequests repository api s)) /\
  statusTableOK (snd (updatePullRequests repository api s)).
Proof.
  intros Hwf Hu. split; [|now apply statusTableOK_refresh].
  destruct (fetchPullRequests api (login (owner repository)) (name repository) "open")
    as [prs|e] eqn:Hf.
  2:{ now rewrite (updatePullRequests_fetch_failed _ _ _ _ Hf). }
  destruct (dbID repository) as [d|] eqn:Hd.
  2:{ rewrite (updatePullRequests_fatal _ _ _ _ Hf) by auto. exact Hu. }
  destruct (Z.eq_dec d 0) as [->|Hnz].
  { rewrite (updatePullRequests_fatal _ _ _ _ Hf) by auto. exact Hu. }
  destruct (fetchedStatuses api repository (viewOf d (written prs repository s)))
    as [statuses|e] eqn:Hs.
  2:{ rewrite (updatePullRequests_status_failed _ _ _ _ _ _ Hf Hd Hnz Hs). exact Hu. }
  rewrite (updatePullRequests_done _ _ _ _ _ _ Hf Hd Hnz Hs).
  unfold statusKeysUnique, attached, statusRows. simpl.
  destruct (written_view_ids repository d prs s) as [Hnd Hge].
  pose proof (fetchedStatuses_ids _ _ _ _ Hs) as Hids.
  rewrite map_app. apply NoDup_app.
  - exact Hu.
  - apply (NoDup_map_inv snd). rewrite map_map.
    change (NoDup (map (fun r => pullRequestId (snd r))
                       (Table.assignKeys (Table.nextKey (pullRequestStatus (db s))) statuses))).
    rewrite <- (map_map snd pullRequestId), assignKeys_rows, Hids. exact Hnd.
  - intros key Hold Hnew.
    apply in_map_iff in Hold as (r & <- & Hr).
    apply in_map_iff in Hnew as (r' & Hkey & Hr').
    apply assignKeys_keys in Hr' as [_ Hr'].
    apply (in_map pullRequestId) in Hr'. rewrite Hids in Hr'.
    apply in_map_iff in Hr' as (p & Hp & Hin).
    specialize (Hge p Hin). specialize (Hwf r Hr).
    injection Hkey as _ Hid. lia.
Qed.

Lemma refresh_keeps_status_keys_unique_witness :
  statusKeysUnique (snd (updatePullRequests desktop allGreen partlyAttached)) /\
  statusTableOK (snd (updatePullRequests desktop allGreen partlyAttached)).
Proof.
  apply (refresh_keeps_status_keys_unique desktop allGreen partlyAttached).
  - intros r [<-|[]]; simpl; lia.
  - repeat constructor. intros [].
Defined.

Lemma NoDup_map_same {A B : Type} (f : A -> B) (l : list A) (x y : A) :
  NoDup (map f l) -> In x l -> In y l -> f x = f y -> x = y.
Proof.
  induction l as [|z l IH]; simpl; intros Hnd Hx Hy E; [contradiction|].
  inversion Hnd as [|? ? Hnotin Hnd']; subst.
  destruct Hx as [->|Hx], Hy as [->|Hy]; auto.
  - exfalso. apply Hnotin. rewrite E. now apply in_map.
  - exfalso. apply Hnotin. rewrite <- E. now apply in_map.
Qed.

(** X12. On a store with one status row per key, as a refresh leaves it, the
    lookup answers the status of the row recorded under the key, which is
    then also the row appended last under it. *)
Theorem status_lookup_with_unique_keys sha0 pullRequestId0 s r :
  statusKeysUnique s ->
  In r (statusRows s) ->
  statusKeyIs sha0 pullRequestId0 r = true ->
  getPullRequestStatusById sha0 pullRequestId0 s = (Ok (Some (toStatus r)), s) /\
  mostRecentlyAppended sha0 pullRequestId0 s = Some r.
Proof.
  intros Hu Hin Hkey.
  assert (Hsame : forall l r',
            (forall x, In x l -> In x (statusRows s)) ->
            find (statusKeyIs sha0 pullRequestId0) l = Some r' -> r' = r).
  { intros l r' Hl E. destruct (find_some _ _ E) as [Hin' Hkey'].
    apply (NoDup_map_same statusKey (statusRows s)); auto.
    apply statusKeyIs_true in Hkey as [<- <-].
    apply statusKeyIs_true in Hkey' as [Hs Hi].
    unfold statusKey. now rewrite Hs, Hi. }
  split.
  - rewrite getPullRequestStatusById_run. unfold statusFor.
    destruct (find_some_of_In _ _ _ Hin Hkey) as [r' E]. rewrite E.
    now rewrite (Hsame _ r' (fun x H => H) E).
  - unfold mostRecentlyAppended.
    destruct (find_some_of_In (statusKeyIs sha0 pullRequestId0) (rev (statusRows s)) r)
      as [r' E]; [now apply in_rev in Hin|exact Hkey|].
    rewrite E. f_equal. apply (Hsame _ r' (fun x H => proj2 (in_rev _ x) H) E).
Qed.

Lemma status_lookup_with_unique_keys_witness :
  getPullRequestStatusById "sha3" 1 partlyAttached
  = (Ok (Some (toStatus (1, {| row_state := failure; totalCount := 4;
                               pullRequestId := 1; status_row_sha := "sha3" |}))),
     partlyAttached) /\
  mostRecentlyAppended "sha3" 1 partlyAttached
  = Some (1, {| row_state := failure; totalCount := 4;
                pullRequestId := 1; status_row_sha := "sha3" |}).
Proof.
  apply (status_lookup_with_unique_keys "sha3" 1 partlyAttached).
  - repeat constructor. intros [].
  - left. reflexivity.
  - reflexivity.
Defined.

(** * The order of the view, what a refresh returns, and the status batch *)

(** ** The order of the view *)

(** C4, as stated, fails: a fetch that repeats a number leaves two rows with
    this number, and the refresh and the view return both; the sequence is
    not strictly descending. *)
Lemma refresh_returns_a_number_twice :
  exists v,
    updatePullRequests desktop repeatedFive emptyStore
    = (Ok v, snd (updatePullRequests desktop repeatedFive emptyStore)) /\
    getPullRequests desktop (snd (updatePullRequests desktop repeatedFive emptyStore))
    = (Ok v, snd (updatePullRequests desktop repeatedFive emptyStore)) /\
    map number v = [5; 5] /\
    ~ StronglySorted Z.gt (map number v).
Proof.
  eexists. split; [reflexivity|]. split; [reflexivity|]. split; [reflexivity|].
  simpl. intros H. inversion H as [|n l _ Hall]; subst.
  inversion Hall as [|m l' Hgt _]; subst. lia.
Qed.

(** C4, amended.  For a repository with a [dbID], the sequence
    [getPullRequests] returns holds the repository's cached pull requests,
    each once, in the order of the storage listing, sorted by number in
    descending order: no pull request comes before one with a greater
    number.  The order is strictly descending when the numbers of the
    repository's cached rows are pairwise distinct.  A refresh that returns
    returns this sequence for the store it leaves. *)
Theorem view_is_sorted_by_descending_number repository d s :
  dbID repository = Some d -> d <> 0 ->
  exists v,
    getPullRequests repository s = (Ok v, s) /\
    map number v = map (fun r => row_number (snd r)) (listByRepository d s) /\
    Permutation (map number v) (numbersOf d s) /\
    StronglySorted Z.ge (map number v) /\
    (NoDup (numbersOf d s) -> StronglySorted Z.gt (map number v)) /\
    (forall api s0 v',
       updatePullRequests repository api s0 = (Ok v', s) -> v' = v).
Proof.
  intros Hd Hnz. exists (viewOf d s).
  assert (Hrun := getPullRequests_run repository d s Hd Hnz).
  assert (Hperm : Permutation (map number (viewOf d s)) (numbersOf d s)).
  { rewrite view_numbers. apply Permutation_map, listByRepository_perm. }
  split; [exact Hrun|]. split; [apply view_numbers|]. split; [exact Hperm|].
  split; [|split].
  - apply Sorted_StronglySorted; [intros a b c; lia|apply view_is_sorted_by_number].
  - intros Hnd. rewrite view_numbers. apply descending_without_ties.
    + apply Sorted_StronglySorted; [exact numberGe_trans|].
      apply sortByNumberDesc_sorted.
    + rewrite <- view_numbers. eapply Permutation_NoDup; [|exact Hnd].
      symmetry. exact Hperm.
  - intros api s0 v' Hu.
    apply updatePullRequests_returns_view in Hu.
    fold (viewOf d s) in Hrun. congruence.
Qed.

Lemma view_is_sorted_by_descending_number_witness :
  exists v,
    getPullRequests desktop (snd (updatePullRequests desktop allGreen dugiteCached))
    = (Ok v, snd (updatePullRequests desktop allGreen dugiteCached)) /\
    map number v = [5; 3] /\
    Permutation (map number v)
                (numbersOf 1 (snd (updatePullRequests desktop allGreen dugiteCached))) /\
    StronglySorted Z.ge (map number v) /\
    StronglySorted Z.gt (map number v) /\
    fst (updatePullRequests desktop allGreen dugiteCached) = Ok v.
Proof.
  destruct (view_is_sorted_by_descending_number desktop 1
              (snd (updatePullRequests desktop allGreen dugiteCached)))
    as (v & Hg & Hl & Hperm & Hge & Hgt & Hrefresh).
  - reflexivity.
  - lia.
  - exists v. split; [exact Hg|]. split; [rewrite Hl; reflexivity|].
    split; [exact Hperm|]. split; [exact Hge|]. split.
    + apply Hgt. vm_compute. repeat constructor; simpl; intuition lia.
    + rewrite <- (Hrefresh allGreen dugiteCached
                    (viewOf 1 (snd (updatePullRequests desktop allGreen dugiteCached))));
        reflexivity.
Defined.

(** ** What a refresh returns *)






(** ** The batch of status rows *)

(** C10. The status rows of a refresh are buffered and written in one batch
    after the last status request.  When every status request for the view
    read after step 2 succeeds, the status table the refresh leaves is the
    table before the refresh with one [bulkAdd] of the buffered rows, one
    per pull request of that view in its order, built from the answers; the
    pull-request rows are those of step 2.  When the status request fails
    for any pull request of that view, the refresh fails, the status table
    is what it was before the refresh (no row is appended, also not for the
    pull requests whose request had succeeded), and the store is left as
    step 2 wrote it. *)
Theorem status_rows_are_written_in_one_batch repository api s prs sW v :
  fetchPullRequests api (login (owner repository)) (name repository) "open" = Ok prs ->
  writePullRequests prs repository s = (Ok tt, sW) ->
  getPullRequests repository sW = (Ok v, sW) ->
  ((forall p, In p v ->
      exists st, fetchCombinedRefStatus api (login (owner repository)) (name repository)
                                        (sha (head p)) = Ok st) ->
   exists statuses v' s',
     Forall2 (fun p row =>
                exists st, fetchCombinedRefStatus api (login (owner repository))
                                                  (name repository) (sha (head p)) = Ok st /\
                           row = statusRowOf p st)
             v statuses /\
     updatePullRequests repository api s = (Ok v', s') /\
     pullRequestStatus (db s') = Table.bulkAdd statuses (pullRequestStatus (db s)) /\
     pullRequests (db s') = pullRequests (db sW) /\
     repositoriesStore s' = repositoriesStore sW) /\
  (forall p e,
     In p v ->
     fetchCombinedRefStatus api (login (owner repository)) (name repository)
                            (sha (head p)) = Err e ->
     exists e',
       updatePullRequests repository api s = (Err e', sW) /\
       pullRequestStatus (db sW) = pullRequestStatus (db s) /\
       pullRequestRows sW =
         Table.assignKeys (Table.nextKey (pullRequests (db s)))
           (fst (insertableRows (endpoint repository) prs (repositoriesStore s)))).
Proof.
  intros Hf Hw Hg.
  destruct (writePullRequests_inv _ _ _ _ Hw) as (d & Hd & Hnz & ->).
  destruct (getPullRequests_inv _ _ _ _ Hg) as (d' & Hd' & _ & -> & _).
  assert (d' = d) as -> by congruence.
  split.
  - intros Hall.
    destruct (fetchedStatuses_all api repository _ Hall) as (statuses & Hs & HF).
    exists statuses, (viewOf d (attached statuses (written prs repository s))),
           (attached statuses (written prs repository s)).
    split; [exact HF|]. split; [now apply updatePullRequests_done|].
    repeat split.
  - intros p e Hin Hp.
    destruct (fetchedStatuses_failure api repository _ p e Hin Hp) as [e' He'].
    exists e'. split; [|split].
    + now apply (updatePullRequests_status_failed _ _ _ _ d).
    + reflexivity.
    + reflexivity.
Qed.

Lemma status_rows_are_written_in_one_batch_witness :
  (exists statuses v' s',
     Forall2 (fun p row =>
                exists st, fetchCombinedRefStatus allGreen (login (owner desktop))
                                                  (name desktop) (sha (head p)) = Ok st /\
                           row = statusRowOf p st)
             (viewOf 1 (snd (writePullRequests fiveAndThree desktop partlyAttached)))
             statuses /\
     updatePullRequests desktop allGreen partlyAttached = (Ok v', s') /\
     pullRequestStatus (db s')
     = Table.bulkAdd statuses (pullRequestStatus (db partlyAttached)) /\
     pullRequests (db s')
     = pullRequests (db (snd (writePullRequests fiveAndThree desktop partlyAttached))) /\
     repositoriesStore s'
     = repositoriesStore (snd (writePullRequests fiveAndThree desktop partlyAttached))) /\
  (exists e',
     updatePullRequests desktop flaky partlyAttached
     = (Err e', snd (writePullRequests fiveAndThree desktop partlyAttached)) /\
     pullRequestStatus (db (snd (writePullRequests fiveAndThree desktop partlyAttached)))
     = pullRequestStatus (db partlyAttached) /\
     pullRequestRows (snd (writePullRequests fiveAndThree desktop partlyAttached)) =
       Table.assignKeys (Table.nextKey (pullRequests (db partlyAttached)))
         (fst (insertableRows (endpoint desktop) fiveAndThree
                              (repositoriesStore partlyAttached)))).
Proof.
  split.
  - apply (proj1 (status_rows_are_written_in_one_batch desktop allGreen partlyAttached
                    fiveAndThree (snd (writePullRequests fiveAndThree desktop partlyAttached))
                    (viewOf 1 (snd (writePullRequests fiveAndThree desktop partlyAttached)))
                    eq_refl eq_refl eq_refl)).
    intros p _. exists twoChecksPassed. reflexivity.
  - apply (proj2 (status_rows_are_written_in_one_batch desktop flaky partlyAttached
                    fiveAndThree (snd (writePullRequests fiveAndThree desktop partlyAttached))
                    (viewOf 1 (snd (writePullRequests fiveAndThree desktop partlyAttached)))
                    eq_refl eq_refl eq_refl)
                 (built (snd (writePullRequests fiveAndThree desktop partlyAttached))
                        (3, storedPullRequest 3 "three" "sha3" 1 1))
                 (APIError "rate limit")).
    + vm_compute. right. left. reflexivity.
    + reflexivity.
Defined.
